(** * Recipe suggestion endpoint: database ingredient matching

    A shallow embedding of [suggest_recipes] (backend/main.py), the request
    schema [IngredientInput] and the response schemas (backend/schemas.py) and
    the [Recipe] / [Ingredient] rows (backend/models.py), followed by the
    properties of the matching, scoring, filtering, ordering and capping steps.

    Conventions of the embedding:
    - a Python [str] is a [string]; its characters are read as the code points
      0..255, on which [str.lower] and [str.strip] are modelled exactly;
    - a Python [int] is a [Z], a [len] is a [nat];
    - a Python [float] (IEEE 754 binary64) that is finite and not negative is
      a pair mantissa/exponent; the two float operations of the handler are
      correctly rounded (round to nearest, ties to even);
    - [raise HTTPException] is the left injection of a sum, the response the
      right one;
    - the loops over recipes and over ingredient names are left folds that
      thread the lists being appended to. *)

From Stdlib Require Import ZArith List Bool Lia Ascii String.
From Stdlib Require Import Sorting.Sorted Sorting.Permutation.
From Stdlib Require Import DecimalString DecimalPos DecimalZ.
From Stdlib Require Import Floats.SpecFloat.
Import ListNotations.

Open Scope Z_scope.

(* ================================================================== *)
(** ** Python floats, as far as the handler uses them *)
(* ================================================================== *)

Module PyFloat.

(** A finite, non-negative binary64 value [mant * 2 ^ expo]. *)
Record float := mkFloat { mant : Z; expo : Z }.

Definition prec : Z := 53.
Definition emax : Z := 1024.
(** Exponent of the least subnormal: 3 - emax - prec. *)
Definition emin : Z := -1074.

(** [shl z k] is [z * 2 ^ k] for [k >= 0] and [z] otherwise. *)
Definition shl (z k : Z) : Z := z * 2 ^ (Z.max 0 k).

(** The integer nearest to [n / d], ties to the even one ([0 <= n], [0 < d]). *)
Definition rne_quot (n d : Z) : Z :=
  let q := n / d in
  let r := n mod d in
  if 2 * r <? d then q
  else if d <? 2 * r then q + 1
  else if Z.even q then q else q + 1.

(** [floor (log2 (n / d))] for [0 < n], [0 < d]. *)
Definition floor_log2_quot (n d : Z) : Z :=
  let l := Z.log2 n - Z.log2 d in
  if shl d l <=? shl n (- l) then l else l - 1.

(** The binary64 nearest to the rational [n / d] ([0 <= n], [0 < d], below
    the overflow threshold): the exponent is chosen so that the quotient has
    53 significant bits, or is [emin] in the subnormal range. *)
Definition round_rat (n d : Z) : float :=
  if n =? 0 then mkFloat 0 emin
  else
    let e := Z.max (floor_log2_quot n d - (prec - 1)) emin in
    mkFloat (rne_quot (shl n (- e)) (shl d e)) e.

(** [float(z)] for an integer of at most 53 bits (exact). *)
Definition of_int (z : Z) : float := mkFloat z 0.

(** [a / b] on Python ints with [0 <= a], [0 < b]: the correctly rounded
    quotient. *)
Definition truediv (a b : Z) : float := round_rat a b.

(** [x * y] on floats: the exact product, rounded. *)
Definition mul (x y : float) : float :=
  let m := mant x * mant y in
  let e := expo x + expo y in
  round_rat (shl m e) (shl 1 (- e)).

(** [int(x)]: truncation toward zero. *)
Definition to_int (x : float) : Z :=
  Z.quot (shl (mant x) (expo x)) (shl 1 (- expo x)).

(** Comparison with the Standard Library's executable IEEE 754 model. *)
Definition of_spec (f : spec_float) : option float :=
  match f with
  | S754_zero false => Some (mkFloat 0 emin)
  | S754_finite false m e => Some (mkFloat (Zpos m) e)
  | _ => None
  end.

Definition same_value (x y : float) : bool :=
  shl (mant x) (expo x - expo y) =? shl (mant y) (expo y - expo x).

Definition agrees (x : float) (f : spec_float) : bool :=
  match of_spec f with
  | Some y => same_value x y
  | None => false
  end.

Definition spec_of_Z (z : Z) : spec_float := binary_normalize prec emax z 0 false.

Definition spec_percentage (h t : Z) : spec_float :=
  SFmul prec emax (SFdiv prec emax (spec_of_Z h) (spec_of_Z t)) (spec_of_Z 100).

End PyFloat.

(* ================================================================== *)
(** ** Python strings: [lower], [strip] and [in] *)
(* ================================================================== *)

Open Scope string_scope.
Open Scope list_scope.
Open Scope Z_scope.

(** [str.lower] on one code point below 256: the ASCII capitals and the
    Latin-1 capitals U+00C0..U+00DE (U+00D7, the multiplication sign, is not a
    letter) move up by 32. *)
Definition lower_char (c : ascii) : ascii :=
  let n := N_of_ascii c in
  if (((65 <=? n) && (n <=? 90)) ||
      ((192 <=? n) && (n <=? 222) && negb (n =? 215)))%N
  then ascii_of_N (n + 32) else c.

Fixpoint lower (s : string) : string :=
  match s with
  | EmptyString => EmptyString
  | String c s' => String (lower_char c) (lower s')
  end.

(** [str.isspace] on one code point below 256. *)
Definition is_space (c : ascii) : bool :=
  let n := N_of_ascii c in
  (((9 <=? n) && (n <=? 13)) || ((28 <=? n) && (n <=? 32)) ||
   (n =? 133) || (n =? 160))%N.

Definition is_empty (s : string) : bool :=
  match s with EmptyString => true | String _ _ => false end.

Fixpoint lstrip (s : string) : string :=
  match s with
  | EmptyString => EmptyString
  | String c s' => if is_space c then lstrip s' else s
  end.

Fixpoint rstrip (s : string) : string :=
  match s with
  | EmptyString => EmptyString
  | String c s' =>
      let r := rstrip s' in
      if is_space c && is_empty r then EmptyString else String c r
  end.

(** [s.strip()] *)
Definition strip (s : string) : string := rstrip (lstrip s).

Fixpoint starts_with (p s : string) : bool :=
  match p, s with
  | EmptyString, _ => true
  | String _ _, EmptyString => false
  | String a p', String b s' => Ascii.eqb a b && starts_with p' s'
  end.

(** [needle in hay] on strings: [needle] occurs in [hay] as a substring. *)
Fixpoint py_in (needle hay : string) : bool :=
  starts_with needle hay ||
  match hay with
  | EmptyString => false
  | String _ hay' => py_in needle hay'
  end.

(** A string made of white space only (the empty string included). *)
Fixpoint blank (s : string) : bool :=
  match s with
  | EmptyString => true
  | String c s' => is_space c && blank s'
  end.

(** The mathematical reading of "is a substring of". *)
Definition Substring (a b : string) : Prop :=
  exists pre post, b = (pre ++ a ++ post)%string.

(** [str(n)] for a length and for an int. *)
Definition str_of_nat (n : nat) : string := NilZero.string_of_uint (Nat.to_uint n).
Definition str_of_Z (z : Z) : string := NilZero.string_of_int (Z.to_int z).

(* ================================================================== *)
(** ** Rows, request and response shapes *)
(* ================================================================== *)

(** models.py, [class Ingredient] *)
Module Ingredient.
Record t := mk { id : Z; name : string; category : option string }.
End Ingredient.

(** models.py, [class Recipe]: the columns the handler reads, the
    [ingredients] relationship and the two time properties. *)
Module Recipe.
Record t := mk {
  id : Z;
  name : string;
  description : option string;
  prep_time_minutes : option Z;
  cook_time_minutes : option Z;
  difficulty : option string;
  cuisine : option string;
  dietary_tags : option (list string);
  ingredients : list Ingredient.t
}.

(** [x or 0] on a nullable integer column *)
Definition or_zero (x : option Z) : Z :=
  match x with Some v => v | None => 0 end.

Definition total_time_minutes (r : t) : Z :=
  or_zero (prep_time_minutes r) + or_zero (cook_time_minutes r).

Definition total_time_display (r : t) : string :=
  let total := total_time_minutes r in
  if 60 <=? total then
    let hours := total / 60 in
    let mins := total mod 60 in
    if mins =? 0 then (str_of_Z hours ++ "h")%string
    else (str_of_Z hours ++ "h " ++ str_of_Z mins ++ "m")%string
  else (str_of_Z total ++ " minutes")%string.
End Recipe.

(** schemas.py, [class IngredientInput] *)
Module IngredientInput.
Record t := mk {
  ingredients : list string;
  dietary_restrictions : list string;
  cuisine_preference : option string
}.
End IngredientInput.

(** schemas.py, [class RecipeSuggestion] *)
Module RecipeSuggestion.
Record t := mk {
  id : Z;
  name : string;
  description : option string;
  ingredients_have : list string;
  ingredients_need : list string;
  match_percentage : Z;
  total_time : string;
  difficulty : option string;
  cuisine : option string;
  dietary_tags : list string
}.
End RecipeSuggestion.

(** schemas.py, [class RecipeSuggestionsResponse] *)
Module RecipeSuggestionsResponse.
Record t := mk {
  suggestions : list RecipeSuggestion.t;
  message : string;
  total_recipes_searched : nat
}.
End RecipeSuggestionsResponse.

(** The values [json.loads] produces; a dict is the list of its items in
    insertion order, with distinct keys. *)
#[local] Unset Elimination Schemes.
Inductive json :=
| JNull
| JBool (b : bool)
| JInt (z : Z)
| JFloat (f : spec_float)
| JStr (s : string)
| JList (l : list json)
| JDict (d : list (string * json)).
#[local] Set Elimination Schemes.

(** What the database driver raises when PostgreSQL refuses a statement
    ([sqlalchemy.exc.ProgrammingError]). *)
Inductive DBError := ProgrammingError.

(** What the endpoint can answer with instead of a response: the handler's
    own [HTTPException], the framework's rejection of a body that does not
    fit [IngredientInput], or the framework's answer to an exception that
    the handler lets through. *)
Inductive HTTPError :=
| HTTPException (status_code : Z) (detail : string)
| RequestValidationError
| UnhandledException (e : DBError).

Definition status_code_of (e : HTTPError) : Z :=
  match e with
  | HTTPException code _ => code
  | RequestValidationError => 422
  | UnhandledException _ => 500
  end.

(** The value of a key of a JSON object, when the key is there. *)
Fixpoint dict_find (d : list (string * json)) (key : string) : option json :=
  match d with
  | [] => None
  | (k, v) :: d' => if String.eqb k key then Some v else dict_find d' key
  end.

(** A JSON array read as [list[str]]: every element has to be a string. *)
Fixpoint strings_of (l : list json) : option (list string) :=
  match l with
  | [] => Some []
  | JStr s :: l' =>
      match strings_of l' with
      | Some ss => Some (s :: ss)
      | None => None
      end
  | _ :: _ => None
  end.

(** Validation of the JSON body against [IngredientInput] (schemas.py):
    the body has to be an object; [ingredients: list[str]] has no default,
    so the key has to be there with an array of strings;
    [dietary_restrictions: list[str] = []] may be absent but, when given,
    has to be an array of strings (null is refused);
    [cuisine_preference: str | None = None] may be absent, null or a
    string.  Other keys are ignored.  [None] stands for the validation
    error. *)
Definition validate_body (body : json) : option IngredientInput.t :=
  match body with
  | JDict d =>
      match dict_find d "ingredients" with
      | Some (JList l) =>
          match strings_of l,
                match dict_find d "dietary_restrictions" with
                | None => Some []
                | Some (JList l') => strings_of l'
                | Some _ => None
                end,
                match dict_find d "cuisine_preference" with
                | None | Some JNull => Some None
                | Some (JStr s) => Some (Some s)
                | Some _ => None
                end
          with
          | Some ings, Some restrictions, Some cuisine =>
              Some (IngredientInput.mk ings restrictions cuisine)
          | _, _, _ => None
          end
      | _ => None
      end
  | _ => None
  end.

(** The database session: the [recipes] table in the order [query.all()]
    yields it, and the SQL predicate [ILIKE] of the cuisine filter, which
    the database engine evaluates. *)
Record Session := mkSession {
  recipes_table : list Recipe.t;
  cuisine_ilike : option string -> string -> bool
}.


(* ================================================================== *)
(** ** [list.sort(key=..., reverse=True)] and slicing *)
(* ================================================================== *)

Section Sort.
Context {A : Type} (key : A -> Z).

(** Python's sort is stable, also under [reverse=True]: elements whose keys
    are equal keep their relative order.  [x] stood before every element of
    [l], so it goes before the first element whose key is not larger. *)
Fixpoint insert_desc (x : A) (l : list A) : list A :=
  match l with
  | [] => [x]
  | y :: l' => if key x <? key y then y :: insert_desc x l' else x :: l
  end.

Fixpoint sort_desc (l : list A) : list A :=
  match l with
  | [] => []
  | x :: l' => insert_desc x (sort_desc l')
  end.

(** Non-increasing keys. *)
Definition desc (a b : A) : Prop := key b <= key a.
End Sort.

(* ================================================================== *)
(** ** The handler [suggest_recipes] *)
(* ================================================================== *)

(** [[ing.lower().strip() for ing in input_data.ingredients]] *)
Definition normalize_ingredients (ings : list string) : list string :=
  map (fun ing => strip (lower ing)) ings.

(** [[ing.name.lower() for ing in recipe.ingredients]] *)
Definition recipe_ingredients_names (recipe : Recipe.t) : list string :=
  map (fun ing => lower (Ingredient.name ing)) (Recipe.ingredients recipe).

(** [any(user_ing in recipe_ing or recipe_ing in user_ing
         for user_ing in user_ingredients)] *)
Definition has_ingredient (user_ingredients : list string) (recipe_ing : string) : bool :=
  existsb (fun user_ing => py_in user_ing recipe_ing || py_in recipe_ing user_ing)
          user_ingredients.

(** One turn of the loop over [recipe_ingredients_names]; the state is the
    pair [(ingredients_have, ingredients_need)]. *)
Definition classify_step (user_ingredients : list string)
    (st : list string * list string) (recipe_ing : string) : list string * list string :=
  if has_ingredient user_ingredients recipe_ing
  then (fst st ++ [recipe_ing], snd st)
  else (fst st, snd st ++ [recipe_ing]).

Definition classify (user_ingredients names : list string) : list string * list string :=
  fold_left (classify_step user_ingredients) names ([], []).

(** [int((len(ingredients_have) / total_ingredients) * 100)], or 0 when there
    is no ingredient. *)
Definition match_pct (have total_ingredients : nat) : Z :=
  if (0 <? total_ingredients)%nat
  then PyFloat.to_int
         (PyFloat.mul (PyFloat.truediv (Z.of_nat have) (Z.of_nat total_ingredients))
                      (PyFloat.of_int 100))
  else 0.

(** [recipe.dietary_tags or []] *)
Definition tags_or_empty (tags : option (list string)) : list string :=
  match tags with Some l => l | None => [] end.

(** The [RecipeSuggestion] built for one recipe. *)
Definition suggestion_of (user_ingredients : list string) (recipe : Recipe.t)
  : RecipeSuggestion.t :=
  let names := recipe_ingredients_names recipe in
  let st := classify user_ingredients names in
  RecipeSuggestion.mk
    (Recipe.id recipe) (Recipe.name recipe) (Recipe.description recipe)
    (fst st) (snd st)
    (match_pct (List.length (fst st)) (List.length names))
    (Recipe.total_time_display recipe)
    (Recipe.difficulty recipe) (Recipe.cuisine recipe)
    (tags_or_empty (Recipe.dietary_tags recipe)).

(** [match_pct > 0 or len(user_ingredients) == 0] *)
Definition keeps (user_ingredients : list string) (s : RecipeSuggestion.t) : bool :=
  (0 <? RecipeSuggestion.match_percentage s) || (List.length user_ingredients =? 0)%nat.

(** One turn of the loop over [recipes]; the state is [suggestions]. *)
Definition suggest_step (user_ingredients : list string)
    (suggestions : list RecipeSuggestion.t) (recipe : Recipe.t) : list RecipeSuggestion.t :=
  let s := suggestion_of user_ingredients recipe in
  if keeps user_ingredients s then suggestions ++ [s] else suggestions.

(** The matching loop, the sort and the slice [[:10]]. *)
Definition rank (user_ingredients : list string) (recipes : list Recipe.t)
  : list RecipeSuggestion.t :=
  let suggestions := fold_left (suggest_step user_ingredients) recipes [] in
  let suggestions := sort_desc RecipeSuggestion.match_percentage suggestions in
  firstn 10 suggestions.

(** The suggestions the loop keeps, in the order of the recipes, as a
    filter (see [suggest_fold]). *)
Definition kept (user_ingredients : list string) (recipes : list Recipe.t)
  : list RecipeSuggestion.t :=
  filter (keeps user_ingredients) (map (suggestion_of user_ingredients) recipes).

(** [query] after the cuisine filter: [db.query(Recipe)], narrowed by
    [Recipe.cuisine.ilike] when the preference is a non-empty string. *)
Definition cuisine_query (db : Session) (input_data : IngredientInput.t) : list Recipe.t :=
  let query := recipes_table db in
  match IngredientInput.cuisine_preference input_data with
  | Some (String c p) =>
      filter (fun r => cuisine_ilike db (Recipe.cuisine r)
                         ("%" ++ String c p ++ "%")%string) query
  | _ => query
  end.

(** [recipes = query.all()].  Every dietary restriction adds
    [Recipe.dietary_tags.contains([restriction])] to the query.  The column
    is declared with the generic [JSON] type (models.py), on which
    [contains] is the string operator, [dietary_tags LIKE '%' || :p || '%'];
    PostgreSQL, the database of config.py, has no [LIKE] for a [json]
    operand and refuses the statement when [all()] executes it, whatever the
    table holds.  So the query yields rows only without restrictions. *)
Definition query_recipes (db : Session) (input_data : IngredientInput.t)
  : DBError + list Recipe.t :=
  let query := cuisine_query db input_data in
  match IngredientInput.dietary_restrictions input_data with
  | [] => inr query
  | _ :: _ => inl ProgrammingError
  end.

Definition found_message (found asked : nat) : string :=
  ("Found " ++ str_of_nat found ++ " recipes matching your "
   ++ str_of_nat asked ++ " ingredients!")%string.

(** The handler.  The check of the ingredient list comes before the query;
    an exception of the query is not caught. *)
Definition suggest_recipes (input_data : IngredientInput.t) (db : Session)
  : HTTPError + RecipeSuggestionsResponse.t :=
  let user_ingredients := normalize_ingredients (IngredientInput.ingredients input_data) in
  match user_ingredients with
  | [] => inl (HTTPException 400 "Please provide at least one ingredient")
  | _ :: _ =>
      match query_recipes db input_data with
      | inl e => inl (UnhandledException e)
      | inr recipes =>
          let suggestions := rank user_ingredients recipes in
          inr (RecipeSuggestionsResponse.mk
                 suggestions
                 (found_message (List.length suggestions) (List.length user_ingredients))
                 (List.length recipes))
      end
  end.

(** The endpoint [POST /api/recipes/suggest]: the body is validated against
    [IngredientInput] before the handler runs. *)
Definition post_suggest (body : json) (db : Session)
  : HTTPError + RecipeSuggestionsResponse.t :=
  match validate_body body with
  | None => inl RequestValidationError
  | Some input_data => suggest_recipes input_data db
  end.

(** The suggestion sequence of an answer, when there is one. *)
Definition suggestions_of (res : HTTPError + RecipeSuggestionsResponse.t)
  : option (list RecipeSuggestion.t) :=
  match res with
  | inl _ => None
  | inr resp => Some (RecipeSuggestionsResponse.suggestions resp)
  end.

(** The status an answer carries: 200 for a response. *)
Definition status_of (res : HTTPError + RecipeSuggestionsResponse.t) : Z :=
  match res with
  | inl e => status_code_of e
  | inr _ => 200
  end.

(** The request with one more ingredient appended. *)
Definition with_extra_ingredient (input_data : IngredientInput.t) (x : string)
  : IngredientInput.t :=
  IngredientInput.mk (IngredientInput.ingredients input_data ++ [x])
                     (IngredientInput.dietary_restrictions input_data)
                     (IngredientInput.cuisine_preference input_data).

(** A recipe that requires at least one ingredient. *)
Definition requires_some (recipe : Recipe.t) : bool :=
  match Recipe.ingredients recipe with [] => false | _ :: _ => true end.

(** The spec's integer formula for the score. *)
Definition floor_pct (have total : nat) : Z :=
  if (0 <? total)%nat then (100 * Z.of_nat have) / Z.of_nat total else 0.

(* ================================================================== *)
(** ** Sample data *)
(* ================================================================== *)

Definition ingredient_named (n : string) : Ingredient.t := Ingredient.mk 0 n None.

Definition recipe_with (id : Z) (name : string) (names : list string) : Recipe.t :=
  Recipe.mk id name None (Some 15) (Some 30) (Some "Medium") None None
            (map ingredient_named names).

(** A session over a table; the cuisine filter is not exercised by the
    samples. *)
Definition session_over (table : list Recipe.t) : Session :=
  mkSession table (fun _ _ => true).

(** The body [{"ingredients": [...]}]. *)
Definition body_of (ings : list string) : json :=
  JDict [("ingredients", JList (map JStr ings))].

(** A recipe whose ingredient names were stored with capitals and a
    trailing blank. *)
Definition salted_untrimmed : Recipe.t := recipe_with 4 "Brine" ["Salt "; "Water"].

Definition input_of (ings : list string) : IngredientInput.t :=
  IngredientInput.mk ings [] None.

Definition thai_green_curry : Recipe.t :=
  recipe_with 1 "Thai Green Curry"
    ["coconut milk"; "green curry paste"; "chicken breast"; "bamboo shoots";
     "thai basil"; "fish sauce"; "palm sugar"; "lime leaves"; "vegetable oil";
     "jasmine rice"].

(** Fifty distinct names, the first twenty-nine of which contain [a]:
    [a0 .. a28] and [b0 .. b20]. *)
Definition numbered (p : string) (n : nat) : list string :=
  map (fun i => (p ++ str_of_nat i)%string) (seq 0 n).

Definition big_stew : Recipe.t :=
  recipe_with 2 "Big Stew" (numbered "a" 29 ++ numbered "b" 21).

(** Eleven recipes of one ingredient each. *)
Definition eleven_recipes : list Recipe.t :=
  map (fun i => recipe_with (Z.of_nat i) "Toast" ["bread"]) (seq 0 11).

Definition salted : Recipe.t := recipe_with 3 "Salted Water" ["Salt"; "Water"].

Definition zrange (n : nat) : list Z := map Z.of_nat (seq 0 n).

(* ================================================================== *)
(** ** The endpoint [get_recipe] *)
(* ================================================================== *)

(** schemas.py, [class IngredientResponse] *)
Module IngredientResponse.
Record t := mk { name : string; id : Z; category : option string }.
End IngredientResponse.

(** models.py, [class Recipe]: a full row, that is the columns of
    [Recipe.t] and the ones only [get_recipe] returns. *)
Module RecipeRow.
Record t := mk {
  recipe : Recipe.t;
  servings : option Z;
  instructions : option string;
  image_url : option string;
  created_at : option Z
}.
End RecipeRow.

(** schemas.py, [class RecipeResponse] *)
Module RecipeResponse.
Record t := mk {
  id : Z;
  name : string;
  description : option string;
  cuisine : option string;
  difficulty : option string;
  prep_time_minutes : option Z;
  cook_time_minutes : option Z;
  total_time : string;
  servings : option Z;
  dietary_tags : list string;
  instructions : option string;
  ingredients : list IngredientResponse.t;
  image_url : option string;
  created_at : option Z
}.
End RecipeResponse.

(** The [RecipeResponse] built from a row. *)
Definition recipe_response (row : RecipeRow.t) : RecipeResponse.t :=
  let recipe := RecipeRow.recipe row in
  RecipeResponse.mk
    (Recipe.id recipe) (Recipe.name recipe) (Recipe.description recipe)
    (Recipe.cuisine recipe) (Recipe.difficulty recipe)
    (Recipe.prep_time_minutes recipe) (Recipe.cook_time_minutes recipe)
    (Recipe.total_time_display recipe)
    (RecipeRow.servings row)
    (tags_or_empty (Recipe.dietary_tags recipe))
    (RecipeRow.instructions row)
    (map (fun ing => IngredientResponse.mk (Ingredient.name ing) (Ingredient.id ing)
                                           (Ingredient.category ing))
         (Recipe.ingredients recipe))
    (RecipeRow.image_url row) (RecipeRow.created_at row).

(** [db.query(Recipe).filter(Recipe.id == recipe_id).first()], then 404 or
    the response. *)
Definition get_recipe (recipe_id : Z) (table : list RecipeRow.t)
  : HTTPError + RecipeResponse.t :=
  match find (fun row => Recipe.id (RecipeRow.recipe row) =? recipe_id) table with
  | None => inl (HTTPException 404 "Recipe not found")
  | Some row => inr (recipe_response row)
  end.

(* ================================================================== *)
(** ** vision_service.py, [get_simple_ingredient_list] *)
(* ================================================================== *)

(** [bool(v)] *)
Definition truthy (v : json) : bool :=
  match v with
  | JNull => false
  | JBool b => b
  | JInt z => negb (z =? 0)
  | JFloat (S754_zero _) => false
  | JFloat _ => true
  | JStr s => negb (is_empty s)
  | JList l => match l with [] => false | _ :: _ => true end
  | JDict d => match d with [] => false | _ :: _ => true end
  end.

(** [d.get(key, default)] *)
Fixpoint dict_get (d : list (string * json)) (key : string) (default : json) : json :=
  match d with
  | [] => default
  | (k, v) :: d' => if String.eqb k key then v else dict_get d' key default
  end.

Inductive PyError := AttributeError | TypeError.

Fixpoint chars (s : string) : list json :=
  match s with
  | EmptyString => []
  | String c s' => JStr (String c EmptyString) :: chars s'
  end.

(** [for x in v]: the elements of a list, the keys of a dict, the
    characters of a string; anything else is not iterable. *)
Definition iterate (v : json) : PyError + list json :=
  match v with
  | JList l => inr l
  | JDict d => inr (map (fun kv => JStr (fst kv)) d)
  | JStr s => inr (chars s)
  | _ => inl TypeError
  end.

(** One turn of the loop over [ingredients]; the state is [result]. *)
Definition simple_step (result : list json) (ing : json) : list json :=
  match ing with
  | JDict d =>
      let name := dict_get d "name" (JStr "") in
      if truthy name then result ++ [name] else result
  | JStr _ => result ++ [ing]
  | _ => result
  end.

Definition get_simple_ingredient_list (vision_result : list (string * json))
  : PyError + list json :=
  if negb (truthy (dict_get vision_result "success" JNull)) then inr []
  else
    match dict_get vision_result "data" (JDict []) with
    | JDict data =>
        match iterate (dict_get data "ingredients" (JList [])) with
        | inl e => inl e
        | inr ingredients => inr (fold_left simple_step ingredients [])
        end
    | _ => inl AttributeError
    end.

(** What one entry of [ingredients] contributes to the list. *)
Definition simple_names (ing : json) : list json :=
  match ing with
  | JDict d =>
      if truthy (dict_get d "name" (JStr "")) then [dict_get d "name" (JStr "")] else []
  | JStr _ => [ing]
  | _ => []
  end.

(** An ingredient entry as the vision prompt asks for it: a dict with a
    name and a category. *)
Definition ingredient_entry (name category : string) : json :=
  JDict [("name", JStr name); ("quantity", JStr "1"); ("category", JStr category)].

(** Helpers for reading a formatted time back. *)
Definition numeric_char (c : ascii) : bool :=
  let n := N_of_ascii c in (((48 <=? n) && (n <=? 57)) || (n =? 45))%N.

Fixpoint all_chars (p : ascii -> bool) (s : string) : bool :=
  match s with
  | EmptyString => true
  | String c s' => p c && all_chars p s'
  end.

Definition row_of (recipe : Recipe.t) : RecipeRow.t :=
  RecipeRow.mk recipe (Some 4) None None None.

(* ================================================================== *)
(** ** Facts about the float operations *)
(* ================================================================== *)

Module PyFloatFacts.
Import PyFloat.

Lemma shl_nonpos z k : k <= 0 -> shl z k = z.
Proof.
  intros Hk. unfold shl. rewrite Z.max_l by lia. simpl. lia.
Qed.

Lemma shl_nonneg z k : 0 <= k -> shl z k = z * 2 ^ k.
Proof.
  intros Hk. unfold shl. now rewrite Z.max_r by lia.
Qed.

Lemma rne_quot_exact q d : 0 < d -> rne_quot (q * d) d = q.
Proof.
  intros Hd. unfold rne_quot.
  rewrite Z.div_mul by lia. rewrite Z.mod_mul by lia.
  destruct (2 * 0 <? d) eqn:E; [reflexivity | apply Z.ltb_ge in E; lia].
Qed.

(** Rounding to the nearest integer never passes an integer that bounds
    the quotient from above. *)
Lemma rne_quot_le n d c : 0 < d -> n <= c * d -> rne_quot n d <= c.
Proof.
  intros Hd Hn. unfold rne_quot.
  pose proof (Z.div_mod n d ltac:(lia)) as Hdm.
  pose proof (Z.mod_pos_bound n d Hd) as Hr.
  assert (Hq : n / d <= c).
  { apply Z.div_le_upper_bound; [assumption | lia]. }
  destruct (2 * (n mod d) <? d) eqn:E1; [assumption |].
  apply Z.ltb_ge in E1.
  assert (n / d < c) by nia.
  destruct (d <? 2 * (n mod d)); [lia |].
  destruct (Z.even (n / d)); lia.
Qed.

Lemma rne_quot_nonneg n d : 0 <= n -> 0 < d -> 0 <= rne_quot n d.
Proof.
  intros Hn Hd. unfold rne_quot.
  assert (0 <= n / d) by (apply Z.div_pos; lia).
  destruct (2 * (n mod d) <? d); [assumption |].
  destruct (d <? 2 * (n mod d)); [lia |].
  destruct (Z.even (n / d)); lia.
Qed.

Lemma floor_log2_quot_le_diff n d : floor_log2_quot n d <= Z.log2 n - Z.log2 d.
Proof.
  unfold floor_log2_quot.
  destruct (shl d _ <=? shl n _); lia.
Qed.

Lemma floor_log2_quot_le n d k :
  0 < d -> 0 <= k -> n <= 2 ^ k * d -> floor_log2_quot n d <= k.
Proof.
  intros Hd Hk Hn.
  pose proof (floor_log2_quot_le_diff n d) as H.
  assert (Z.log2 n <= Z.log2 (d * 2 ^ k)).
  { apply Z.log2_le_mono. lia. }
  rewrite Z.log2_mul_pow2 in H0 by lia. lia.
Qed.

Lemma floor_log2_quot_same d : 0 < d -> floor_log2_quot d d = 0.
Proof.
  intros Hd. unfold floor_log2_quot.
  rewrite Z.sub_diag. simpl. unfold shl. simpl.
  destruct (d * 1 <=? d * 1) eqn:E; [reflexivity | apply Z.leb_gt in E; lia].
Qed.

(** A quotient bounded by an integer [c <= 2 ^ k] with [k <= 52] rounds to
    a float with a non-positive exponent whose value is at most [c]. *)
Lemma round_rat_le n d c k :
  0 <= n -> 0 < d -> 0 <= k <= 52 -> n <= c * d -> c <= 2 ^ k ->
  expo (round_rat n d) <= 0 /\
  0 <= mant (round_rat n d) <= c * 2 ^ (- expo (round_rat n d)).
Proof.
  intros Hn Hd Hk Hnc Hc.
  assert (H0c : 0 <= c) by nia.
  unfold round_rat.
  destruct (n =? 0) eqn:En; cbn [mant expo].
  - unfold emin. split; [lia |].
    split; [lia |]. apply Z.mul_nonneg_nonneg; [assumption |].
    apply Z.pow_nonneg; lia.
  - apply Z.eqb_neq in En.
    assert (HL : floor_log2_quot n d <= k).
    { apply floor_log2_quot_le; try lia. nia. }
    set (e := Z.max (floor_log2_quot n d - (prec - 1)) emin).
    assert (He : e <= 0) by (unfold e, prec, emin; lia).
    rewrite (shl_nonneg n (- e)) by lia.
    rewrite (shl_nonpos d e) by lia.
    assert (Hp : 0 < 2 ^ (- e)) by (apply Z.pow_pos_nonneg; lia).
    repeat split; try assumption.
    + apply rne_quot_nonneg; nia.
    + apply rne_quot_le; [assumption | nia].
Qed.

Lemma truediv_same t : 0 < t -> truediv t t = mkFloat (2 ^ 52) (-52).
Proof.
  intros Ht. unfold truediv, round_rat.
  destruct (t =? 0) eqn:E; [apply Z.eqb_eq in E; lia |].
  rewrite floor_log2_quot_same by assumption.
  change (Z.max (0 - (prec - 1)) emin) with (-52).
  rewrite shl_nonneg by lia. rewrite shl_nonpos by lia.
  change (- -52) with 52.
  rewrite (Z.mul_comm t), rne_quot_exact by assumption. reflexivity.
Qed.

(** [int((h / t) * 100)] stays within 0..100 when [0 <= h <= t]. *)
Lemma percentage_bounds h t :
  0 <= h <= t -> 0 < t ->
  0 <= to_int (mul (truediv h t) (of_int 100)) <= 100.
Proof.
  intros Hh Ht.
  destruct (round_rat_le h t 1 0) as (Hex & Hm0 & Hm1); try lia.
  fold (truediv h t) in Hex, Hm0, Hm1.
  set (x := truediv h t) in *.
  unfold mul, of_int; cbn [mant expo].
  rewrite Z.add_0_r.
  rewrite (shl_nonpos _ (expo x)) by assumption.
  rewrite (shl_nonneg 1 (- expo x)) by lia.
  rewrite Z.mul_1_l.
  assert (Hp : 0 < 2 ^ (- expo x)) by (apply Z.pow_pos_nonneg; lia).
  destruct (round_rat_le (mant x * 100) (2 ^ (- expo x)) 100 7)
    as (Hey & Hy0 & Hy1); try lia.
  set (y := round_rat (mant x * 100) (2 ^ (- expo x))) in *.
  unfold to_int.
  rewrite (shl_nonpos _ (expo y)) by assumption.
  rewrite (shl_nonneg 1 (- expo y)) by lia.
  rewrite Z.mul_1_l.
  assert (Hq : 0 < 2 ^ (- expo y)) by (apply Z.pow_pos_nonneg; lia).
  rewrite Z.quot_div_nonneg by lia.
  split.
  - apply Z.div_pos; lia.
  - apply Z.div_le_upper_bound; lia.
Qed.

(** [int((t / t) * 100) == 100] *)
Lemma percentage_full t :
  0 < t -> to_int (mul (truediv t t) (of_int 100)) = 100.
Proof.
  intros Ht. rewrite truediv_same by assumption. vm_compute. reflexivity.
Qed.

(** On quotients of small integers the model computes the same floats as
    the Standard Library's IEEE 754 operations at precision 53. *)
Lemma agrees_with_spec_float :
  forallb (fun t =>
    forallb (fun h =>
      agrees (truediv h t) (SFdiv prec emax (spec_of_Z h) (spec_of_Z t)) &&
      agrees (mul (truediv h t) (of_int 100)) (spec_percentage h t))
      (zrange (Z.to_nat t + 1)))
    (map (Z.add 1) (zrange 64)) = true.
Proof. vm_compute. reflexivity. Qed.

End PyFloatFacts.

(* ================================================================== *)
(** ** Facts about the string operations *)
(* ================================================================== *)

Lemma starts_with_spec p s :
  starts_with p s = true <-> exists post, s = (p ++ post)%string.
Proof.
  revert s. induction p as [| a p IH]; intros s; simpl.
  - split; [intros _; now exists s | reflexivity].
  - destruct s as [| b s].
    + split; [discriminate | intros (post & H); discriminate].
    + rewrite andb_true_iff, Ascii.eqb_eq, IH. split.
      * intros (-> & post & ->). now exists post.
      * intros (post & H). injection H as -> ->. split; [reflexivity | now exists post].
Qed.

(** [py_in] decides the substring relation. *)
Lemma py_in_spec a b : py_in a b = true <-> Substring a b.
Proof.
  unfold Substring. induction b as [| c b IH].
  - simpl. rewrite orb_false_r, starts_with_spec. split.
    + intros (post & H). now exists EmptyString, post.
    + intros (pre & post & H). destruct pre; [now exists post | discriminate].
  - cbn [py_in]. rewrite orb_true_iff, starts_with_spec, IH. split.
    + intros [(post & H) | (pre & post & H)].
      * now exists EmptyString, post.
      * exists (String c pre), post. simpl. now rewrite H.
    + intros (pre & post & H). destruct pre as [| c' pre].
      * left. now exists post.
      * right. simpl in H. injection H as _ H. now exists pre, post.
Qed.

Lemma py_in_empty s : py_in EmptyString s = true.
Proof. destruct s; reflexivity. Qed.

Lemma is_space_lower_char c : is_space (lower_char c) = is_space c.
Proof.
  destruct c as [[] [] [] [] [] [] [] []]; reflexivity.
Qed.

Lemma blank_lower s : blank (lower s) = blank s.
Proof.
  induction s as [| c s IH]; simpl; [reflexivity |].
  now rewrite is_space_lower_char, IH.
Qed.

Lemma lstrip_blank s : blank s = true -> lstrip s = EmptyString.
Proof.
  induction s as [| c s IH]; simpl; [reflexivity |].
  intros H. apply andb_true_iff in H as [Hc Hs]. rewrite Hc. auto.
Qed.

Lemma strip_lower_blank s : blank s = true -> strip (lower s) = EmptyString.
Proof.
  intros H. unfold strip. rewrite lstrip_blank; [reflexivity |].
  now rewrite blank_lower.
Qed.

(* ================================================================== *)
(** ** Facts about the two loops *)
(* ================================================================== *)

Lemma classify_fold user_ingredients names have need :
  fold_left (classify_step user_ingredients) names (have, need) =
  (have ++ filter (has_ingredient user_ingredients) names,
   need ++ filter (fun r => negb (has_ingredient user_ingredients r)) names).
Proof.
  revert have need. induction names as [| r names IH]; intros have need; simpl.
  - now rewrite !app_nil_r.
  - unfold classify_step at 2. simpl.
    destruct (has_ingredient user_ingredients r); simpl; rewrite IH;
      now rewrite <- app_assoc.
Qed.

(** The inner loop splits the names by [has_ingredient], in order. *)
Lemma classify_filter user_ingredients names :
  classify user_ingredients names =
  (filter (has_ingredient user_ingredients) names,
   filter (fun r => negb (has_ingredient user_ingredients r)) names).
Proof. unfold classify. now rewrite classify_fold. Qed.

Lemma filter_split_length {A} (p : A -> bool) (l : list A) :
  (List.length (filter p l) + List.length (filter (fun x => negb (p x)) l)
   = List.length l)%nat.
Proof.
  induction l as [| x l IH]; simpl; [reflexivity |].
  destruct (p x); simpl; lia.
Qed.

Lemma suggest_fold user_ingredients recipes acc :
  fold_left (suggest_step user_ingredients) recipes acc =
  acc ++ filter (keeps user_ingredients) (map (suggestion_of user_ingredients) recipes).
Proof.
  revert acc. induction recipes as [| r recipes IH]; intros acc; simpl.
  - now rewrite app_nil_r.
  - rewrite IH. unfold suggest_step.
    destruct (keeps user_ingredients (suggestion_of user_ingredients r)); simpl;
      [now rewrite <- app_assoc | reflexivity].
Qed.

Lemma rank_kept user_ingredients recipes :
  rank user_ingredients recipes =
  firstn 10 (sort_desc RecipeSuggestion.match_percentage (kept user_ingredients recipes)).
Proof. unfold rank. now rewrite suggest_fold. Qed.

Lemma has_ingredient_spec user_ingredients r :
  has_ingredient user_ingredients r = true <->
  exists u, In u user_ingredients /\ (Substring u r \/ Substring r u).
Proof.
  unfold has_ingredient. rewrite existsb_exists.
  split; intros (u & Hu & H); exists u; split; try assumption.
  - apply orb_true_iff in H. now rewrite <- !py_in_spec.
  - apply orb_true_iff. now rewrite !py_in_spec.
Qed.

(* ================================================================== *)
(** ** Facts about the sort *)
(* ================================================================== *)

Lemma firstn_In {A} (x : A) n l : In x (firstn n l) -> In x l.
Proof.
  revert l. induction n as [| n IH]; intros [| y l]; simpl; try tauto.
  intros [H | H]; [now left | right; now apply IH].
Qed.

Section SortFacts.
Context {A : Type} (key : A -> Z).

Lemma insert_desc_perm x l : Permutation (x :: l) (insert_desc key x l).
Proof.
  induction l as [| y l IH]; simpl; [reflexivity |].
  destruct (key x <? key y); [| reflexivity].
  rewrite perm_swap. now apply perm_skip.
Qed.

Lemma sort_desc_perm l : Permutation l (sort_desc key l).
Proof.
  induction l as [| x l IH]; simpl; [constructor |].
  rewrite <- insert_desc_perm. now apply perm_skip.
Qed.

Lemma insert_desc_sorted x l :
  StronglySorted (desc key) l -> StronglySorted (desc key) (insert_desc key x l).
Proof.
  induction 1 as [| y l Hs IH Hy]; simpl.
  - repeat constructor.
  - destruct (key x <? key y) eqn:E.
    + constructor; [assumption |].
      rewrite <- insert_desc_perm. constructor; [| assumption].
      apply Z.ltb_lt in E. unfold desc. lia.
    + apply Z.ltb_ge in E. constructor; [now constructor |].
      constructor; [assumption |].
      rewrite Forall_forall in *. intros z Hz. specialize (Hy z Hz).
      unfold desc in *. lia.
Qed.

Lemma sort_desc_sorted l : StronglySorted (desc key) (sort_desc key l).
Proof.
  induction l as [| x l IH]; simpl; [constructor | now apply insert_desc_sorted].
Qed.

(** Stability: the elements of any one key keep their relative order, which
    together with [sort_desc_perm] and [sort_desc_sorted] determines the
    result. *)
Lemma insert_desc_stable k x l :
  filter (fun a => key a =? k) (insert_desc key x l) =
  filter (fun a => key a =? k) (x :: l).
Proof.
  induction l as [| y l IH]; [reflexivity |].
  cbn [insert_desc]. destruct (key x <? key y) eqn:E; [| reflexivity].
  apply Z.ltb_lt in E. cbn [filter] in *. rewrite IH.
  destruct (key y =? k) eqn:Ey, (key x =? k) eqn:Ex; try reflexivity.
  apply Z.eqb_eq in Ey, Ex. lia.
Qed.

Lemma sort_desc_stable k l :
  filter (fun a => key a =? k) (sort_desc key l) = filter (fun a => key a =? k) l.
Proof.
  induction l as [| x l IH]; [reflexivity |].
  cbn [sort_desc]. rewrite insert_desc_stable. cbn [filter]. now rewrite IH.
Qed.

(** In particular a list that is already in order is left as it is. *)
Lemma sort_desc_id l : StronglySorted (desc key) l -> sort_desc key l = l.
Proof.
  induction 1 as [| x l Hs IH Hx]; simpl; [reflexivity |].
  rewrite IH. destruct l as [| y l]; simpl; [reflexivity |].
  apply Forall_inv in Hx. unfold desc in Hx.
  destruct (key x <? key y) eqn:E; [apply Z.ltb_lt in E; lia | reflexivity].
Qed.

Lemma constant_key_sorted k l :
  Forall (fun a => key a = k) l -> StronglySorted (desc key) l.
Proof.
  induction 1 as [| x l Hx Hl IH]; constructor; [assumption |].
  rewrite Forall_forall in *. intros y Hy. unfold desc.
  rewrite Hx, (Hl y Hy). lia.
Qed.

Lemma firstn_sorted n l : StronglySorted (desc key) l -> StronglySorted (desc key) (firstn n l).
Proof.
  intros H. revert n. induction H as [| x l Hs IH Hx]; intros [| n]; simpl;
    try constructor; [apply IH |].
  rewrite Forall_forall in *. intros y Hy. apply Hx.
  now apply (firstn_In y n).
Qed.
End SortFacts.

(* ================================================================== *)
(** ** Facts about the handler *)
(* ================================================================== *)

Lemma normalize_nil ings : normalize_ingredients ings = [] <-> ings = [].
Proof.
  unfold normalize_ingredients. destruct ings; simpl; split; congruence.
Qed.

Lemma query_recipes_ok db input_data :
  IngredientInput.dietary_restrictions input_data = [] ->
  query_recipes db input_data = inr (cuisine_query db input_data).
Proof. intros H. unfold query_recipes. now rewrite H. Qed.

Lemma query_recipes_inr db input_data recipes :
  query_recipes db input_data = inr recipes ->
  IngredientInput.dietary_restrictions input_data = [] /\
  recipes = cuisine_query db input_data.
Proof.
  unfold query_recipes.
  destruct (IngredientInput.dietary_restrictions input_data); [| discriminate].
  intros H. injection H as <-. auto.
Qed.

(** With at least one ingredient and a query that succeeds, the handler
    answers with the ranking of the queried recipes. *)
Lemma suggest_recipes_ok input_data db recipes :
  IngredientInput.ingredients input_data <> [] ->
  query_recipes db input_data = inr recipes ->
  suggest_recipes input_data db =
  inr (RecipeSuggestionsResponse.mk
         (rank (normalize_ingredients (IngredientInput.ingredients input_data)) recipes)
         (found_message
            (List.length (rank (normalize_ingredients (IngredientInput.ingredients input_data))
                               recipes))
            (List.length (normalize_ingredients (IngredientInput.ingredients input_data))))
         (List.length recipes)).
Proof.
  intros H Hq. unfold suggest_recipes. rewrite Hq.
  destruct (normalize_ingredients (IngredientInput.ingredients input_data)) eqn:E.
  - apply (proj1 (normalize_nil _)) in E. contradiction.
  - reflexivity.
Qed.

(** With at least one ingredient and a query that raises, the exception
    goes through the handler. *)
Lemma suggest_recipes_raises input_data db e :
  IngredientInput.ingredients input_data <> [] ->
  query_recipes db input_data = inl e ->
  suggest_recipes input_data db = inl (UnhandledException e).
Proof.
  intros H Hq. unfold suggest_recipes. rewrite Hq.
  destruct (normalize_ingredients (IngredientInput.ingredients input_data)) eqn:E.
  - apply (proj1 (normalize_nil _)) in E. contradiction.
  - reflexivity.
Qed.

(** Whenever the handler answers with suggestions, they are the ranking of
    the queried recipes against the normalized user ingredients. *)
Lemma suggestions_of_handler input_data db l :
  suggestions_of (suggest_recipes input_data db) = Some l ->
  IngredientInput.ingredients input_data <> [] /\
  exists recipes,
    query_recipes db input_data = inr recipes /\
    l = rank (normalize_ingredients (IngredientInput.ingredients input_data)) recipes.
Proof.
  unfold suggest_recipes.
  destruct (normalize_ingredients (IngredientInput.ingredients input_data)) eqn:E;
    cbn [suggestions_of]; [discriminate |].
  destruct (query_recipes db input_data) as [e | recipes];
    cbn [suggestions_of RecipeSuggestionsResponse.suggestions]; [discriminate |].
  intros H. injection H as <-. split; [| now exists recipes].
  intros Hnil. rewrite Hnil in E. discriminate.
Qed.

Lemma suggest_recipes_empty input_data db :
  IngredientInput.ingredients input_data = [] ->
  suggest_recipes input_data db =
  inl (HTTPException 400 "Please provide at least one ingredient").
Proof. intros H. unfold suggest_recipes. now rewrite H. Qed.

Lemma match_pct_bounds have total :
  (have <= total)%nat -> 0 <= match_pct have total <= 100.
Proof.
  intros H. unfold match_pct.
  destruct (0 <? total)%nat eqn:E; [| lia].
  apply Nat.ltb_lt in E. apply PyFloatFacts.percentage_bounds; lia.
Qed.

Lemma match_pct_full total : (0 < total)%nat -> match_pct total total = 100.
Proof.
  intros H. unfold match_pct.
  destruct (0 <? total)%nat eqn:E; [| apply Nat.ltb_ge in E; lia].
  apply PyFloatFacts.percentage_full. lia.
Qed.

Lemma match_pct_no_ingredient have : match_pct have 0 = 0.
Proof. reflexivity. Qed.

Lemma suggestion_have user_ingredients recipe :
  RecipeSuggestion.ingredients_have (suggestion_of user_ingredients recipe) =
  filter (has_ingredient user_ingredients) (recipe_ingredients_names recipe).
Proof. unfold suggestion_of. cbn. now rewrite classify_filter. Qed.

Lemma suggestion_need user_ingredients recipe :
  RecipeSuggestion.ingredients_need (suggestion_of user_ingredients recipe) =
  filter (fun r => negb (has_ingredient user_ingredients r))
         (recipe_ingredients_names recipe).
Proof. unfold suggestion_of. cbn. now rewrite classify_filter. Qed.

Lemma suggestion_pct user_ingredients recipe :
  RecipeSuggestion.match_percentage (suggestion_of user_ingredients recipe) =
  match_pct
    (List.length (filter (has_ingredient user_ingredients) (recipe_ingredients_names recipe)))
    (List.length (Recipe.ingredients recipe)).
Proof.
  unfold suggestion_of. cbn. rewrite classify_filter. cbn.
  unfold recipe_ingredients_names at 2. now rewrite length_map.
Qed.

Lemma filter_length_le {A} (p : A -> bool) l :
  (List.length (filter p l) <= List.length l)%nat.
Proof.
  induction l as [| x l IH]; simpl; [lia |]. destruct (p x); simpl; lia.
Qed.

Lemma suggestion_pct_bounds user_ingredients recipe :
  0 <= RecipeSuggestion.match_percentage (suggestion_of user_ingredients recipe) <= 100.
Proof.
  rewrite suggestion_pct. apply match_pct_bounds.
  etransitivity; [apply filter_length_le |].
  unfold recipe_ingredients_names. now rewrite length_map.
Qed.

(** Every ranked suggestion was built from one of the recipes and passed
    the filter. *)
Lemma In_rank user_ingredients recipes s :
  In s (rank user_ingredients recipes) ->
  exists recipe, In recipe recipes /\ s = suggestion_of user_ingredients recipe /\
                 keeps user_ingredients s = true.
Proof.
  rewrite rank_kept. intros H. apply firstn_In in H.
  apply (Permutation_in _ (Permutation_sym (sort_desc_perm _ _))) in H.
  unfold kept in H. apply filter_In in H as [H Hk].
  apply in_map_iff in H as (recipe & <- & Hr).
  exists recipe. repeat split; assumption.
Qed.

Lemma has_ingredient_ext u v :
  (forall x, In x u <-> In x v) ->
  forall r, has_ingredient u r = has_ingredient v r.
Proof.
  intros H r. apply eq_true_iff_eq. unfold has_ingredient.
  rewrite !existsb_exists.
  split; intros (x & Hx & Hp); exists x; split; try assumption; now apply H.
Qed.

Lemma suggestion_of_ext u v recipe :
  (forall r, has_ingredient u r = has_ingredient v r) ->
  suggestion_of u recipe = suggestion_of v recipe.
Proof.
  intros H. unfold suggestion_of. rewrite !classify_filter. cbn.
  rewrite (filter_ext _ _ H).
  rewrite (filter_ext (fun r => negb (has_ingredient u r))
                      (fun r => negb (has_ingredient v r)));
    [reflexivity | intros r; now rewrite H].
Qed.

(** The empty string is contained in every name. *)
Lemma has_ingredient_empty_string us r : has_ingredient (EmptyString :: us) r = true.
Proof. unfold has_ingredient. simpl. now rewrite py_in_empty. Qed.

(* ================================================================== *)
(** ** The matching rule *)
(* ================================================================== *)

(** C1 fails as stated: the required names are lower-cased but not
    trimmed before the comparison.  A stored "Salt " is not satisfied by the
    user ingredient "Sea Salt", although its normalized form "salt" is a
    substring of the normalized "sea salt". *)
Lemma untrimmed_name_not_satisfied :
  ~ (forall ings recipe ing,
       In ing (Recipe.ingredients recipe) ->
       (In (lower (Ingredient.name ing))
           (RecipeSuggestion.ingredients_have
              (suggestion_of (normalize_ingredients ings) recipe)) <->
        exists u, In u (normalize_ingredients ings) /\
                  (Substring u (strip (lower (Ingredient.name ing))) \/
                   Substring (strip (lower (Ingredient.name ing))) u))).
Proof.
  intros H.
  specialize (H ["Sea Salt"] salted_untrimmed (ingredient_named "Salt ")
                (or_introl eq_refl)).
  apply proj2 in H.
  assert (Hin : In (lower (Ingredient.name (ingredient_named "Salt ")))
                   (RecipeSuggestion.ingredients_have
                      (suggestion_of (normalize_ingredients ["Sea Salt"])
                                     salted_untrimmed))).
  { apply H. exists "sea salt". split; [left; reflexivity |].
    right. exists "sea ", EmptyString. reflexivity. }
  vm_compute in Hin. exact Hin.
Qed.

(** C1, amended.  For a candidate and one of its required ingredient names
    [r], lower-cased but not trimmed, [r] is put in [ingredients_have]
    exactly when some user ingredient [x], lower-cased and trimmed, is a
    substring of [r] or has [r] as a substring, and in [ingredients_need]
    exactly when none is. *)
Theorem satisfied_iff_containment (ings : list string) (recipe : Recipe.t) (r : string) :
  In r (map (fun ing => lower (Ingredient.name ing)) (Recipe.ingredients recipe)) ->
  (In r (RecipeSuggestion.ingredients_have
           (suggestion_of (normalize_ingredients ings) recipe)) <->
   exists x, In x ings /\
             (Substring (strip (lower x)) r \/ Substring r (strip (lower x)))) /\
  (In r (RecipeSuggestion.ingredients_need
           (suggestion_of (normalize_ingredients ings) recipe)) <->
   ~ exists x, In x ings /\
               (Substring (strip (lower x)) r \/ Substring r (strip (lower x)))).
Proof.
  intros Hr.
  assert (Hex : has_ingredient (normalize_ingredients ings) r = true <->
                exists x, In x ings /\
                          (Substring (strip (lower x)) r \/ Substring r (strip (lower x)))).
  { rewrite has_ingredient_spec. unfold normalize_ingredients. split.
    - intros (u & Hu & H). apply in_map_iff in Hu as (x & <- & Hx). now exists x.
    - intros (x & Hx & H). exists (strip (lower x)). split; [| assumption].
      now apply (in_map (fun ing => strip (lower ing))). }
  rewrite suggestion_have, suggestion_need, !filter_In, <- Hex.
  unfold recipe_ingredients_names. split.
  - tauto.
  - rewrite negb_true_iff, not_true_iff_false. tauto.
Qed.

Lemma satisfied_iff_containment_witness :
  In "chicken breast"
     (map (fun ing => lower (Ingredient.name ing)) (Recipe.ingredients thai_green_curry)) /\
  exists x, In x ["Chicken "; "garlic"] /\
            (Substring (strip (lower x)) "chicken breast" \/
             Substring "chicken breast" (strip (lower x))).
Proof.
  assert (Hr : In "chicken breast"
                  (map (fun ing => lower (Ingredient.name ing))
                       (Recipe.ingredients thai_green_curry))).
  { right. right. left. reflexivity. }
  split; [exact Hr |].
  apply (proj1 (proj1 (satisfied_iff_containment
                         ["Chicken "; "garlic"] thai_green_curry _ Hr))).
  vm_compute. left. reflexivity.
Defined.

(** C8.  Scenario A: with ["chicken"; "garlic"] the Thai Green Curry has
    exactly one satisfied ingredient, "chicken breast", and scores 10. *)
Theorem scenario_thai_green_curry :
  List.length (Recipe.ingredients thai_green_curry) = 10%nat /\
  exists s,
    suggestions_of (suggest_recipes (input_of ["chicken"; "garlic"])
                                    (session_over [thai_green_curry])) = Some [s] /\
    RecipeSuggestion.ingredients_have s = ["chicken breast"] /\
    List.length (RecipeSuggestion.ingredients_need s) = 9%nat /\
    RecipeSuggestion.match_percentage s = 10 /\
    py_in "chicken" "chicken breast" = true /\
    forallb (fun r => negb (has_ingredient ["garlic"] r))
            (recipe_ingredients_names thai_green_curry) = true.
Proof.
  split; [reflexivity |].
  eexists. split; [vm_compute; reflexivity |].
  cbn [RecipeSuggestion.ingredients_have RecipeSuggestion.ingredients_need
       RecipeSuggestion.match_percentage].
  split; [reflexivity |]. split; [reflexivity |]. split; [reflexivity |].
  split; vm_compute; reflexivity.
Qed.

(* ================================================================== *)
(** ** Filtering, ordering and capping *)
(* ================================================================== *)

(** C3.  With a non-empty list of user ingredients every ranked suggestion
    scores more than 0 and at most 100, and comes from a candidate with at
    least one required ingredient. *)
Theorem ranked_scores_positive (user_ingredients : list string)
    (recipes : list Recipe.t) (s : RecipeSuggestion.t) :
  user_ingredients <> [] ->
  In s (rank user_ingredients recipes) ->
  0 < RecipeSuggestion.match_percentage s <= 100 /\
  exists recipe, In recipe recipes /\ s = suggestion_of user_ingredients recipe /\
                 Recipe.ingredients recipe <> [].
Proof.
  intros Hu Hs. apply In_rank in Hs as (recipe & Hr & -> & Hk).
  unfold keeps in Hk.
  destruct user_ingredients as [| u us]; [contradiction |].
  apply orb_true_iff in Hk as [Hk | Hk]; [| discriminate].
  apply Z.ltb_lt in Hk.
  pose proof (suggestion_pct_bounds (u :: us) recipe) as Hb.
  split; [lia |].
  exists recipe. repeat split; try assumption.
  intros Hnil. rewrite suggestion_pct, Hnil in Hk. simpl in Hk.
  rewrite match_pct_no_ingredient in Hk. lia.
Qed.

Lemma ranked_scores_positive_witness :
  ["chicken"; "garlic"] <> [] /\
  In (suggestion_of ["chicken"; "garlic"] thai_green_curry)
     (rank ["chicken"; "garlic"] [thai_green_curry]) /\
  0 < RecipeSuggestion.match_percentage
        (suggestion_of ["chicken"; "garlic"] thai_green_curry) <= 100.
Proof.
  assert (Hu : ["chicken"; "garlic"] <> []) by discriminate.
  assert (Hs : In (suggestion_of ["chicken"; "garlic"] thai_green_curry)
                  (rank ["chicken"; "garlic"] [thai_green_curry])).
  { vm_compute. left. reflexivity. }
  split; [exact Hu |]. split; [exact Hs |].
  exact (proj1 (ranked_scores_positive _ _ _ Hu Hs)).
Defined.

(** C4.  The ranking has at most 10 entries and its scores never increase
    along the sequence. *)
Theorem ranked_capped_and_sorted (user_ingredients : list string)
    (recipes : list Recipe.t) :
  (List.length (rank user_ingredients recipes) <= 10)%nat /\
  StronglySorted
    (fun a b => RecipeSuggestion.match_percentage b <= RecipeSuggestion.match_percentage a)
    (rank user_ingredients recipes).
Proof.
  unfold rank. split.
  - apply firstn_le_length.
  - apply (firstn_sorted RecipeSuggestion.match_percentage).
    apply sort_desc_sorted.
Qed.

(** C5.  For every ranked suggestion, [ingredients_have] and
    [ingredients_need] are the two complementary subsequences that the test
    [has_ingredient] cuts out of the candidate's required names: their
    lengths add up to the number of required ingredients and no name is in
    both. *)
Theorem have_need_partition (user_ingredients : list string)
    (recipes : list Recipe.t) (s : RecipeSuggestion.t) :
  In s (rank user_ingredients recipes) ->
  exists recipe,
    In recipe recipes /\ s = suggestion_of user_ingredients recipe /\
    (List.length (RecipeSuggestion.ingredients_have s) +
     List.length (RecipeSuggestion.ingredients_need s) =
     List.length (Recipe.ingredients recipe))%nat /\
    RecipeSuggestion.ingredients_have s =
      filter (has_ingredient user_ingredients) (recipe_ingredients_names recipe) /\
    RecipeSuggestion.ingredients_need s =
      filter (fun r => negb (has_ingredient user_ingredients r))
             (recipe_ingredients_names recipe) /\
    forall r, ~ (In r (RecipeSuggestion.ingredients_have s) /\
                 In r (RecipeSuggestion.ingredients_need s)).
Proof.
  intros Hs. apply In_rank in Hs as (recipe & Hr & -> & _).
  exists recipe. rewrite suggestion_have, suggestion_need.
  repeat split; try assumption.
  - rewrite filter_split_length. unfold recipe_ingredients_names. apply length_map.
  - intros r [H1 H2]. apply filter_In in H1 as [_ H1]. apply filter_In in H2 as [_ H2].
    rewrite H1 in H2. discriminate.
Qed.

Lemma have_need_partition_witness :
  In (suggestion_of ["chicken"; "garlic"] thai_green_curry)
     (rank ["chicken"; "garlic"] [thai_green_curry]) /\
  exists recipe,
    In recipe [thai_green_curry] /\
    suggestion_of ["chicken"; "garlic"] thai_green_curry =
      suggestion_of ["chicken"; "garlic"] recipe /\
    (List.length (RecipeSuggestion.ingredients_have
                    (suggestion_of ["chicken"; "garlic"] thai_green_curry)) +
     List.length (RecipeSuggestion.ingredients_need
                    (suggestion_of ["chicken"; "garlic"] thai_green_curry)) =
     List.length (Recipe.ingredients recipe))%nat.
Proof.
  assert (Hs : In (suggestion_of ["chicken"; "garlic"] thai_green_curry)
                  (rank ["chicken"; "garlic"] [thai_green_curry])).
  { vm_compute. left. reflexivity. }
  split; [exact Hs |].
  destruct (have_need_partition _ _ _ Hs) as (recipe & H1 & H2 & H3 & _).
  exists recipe. repeat split; assumption.
Defined.

(* ================================================================== *)
(** ** The score *)
(* ================================================================== *)

(** Up to a hundred ingredients the score is the integer formula
    [floor (100 * have / total)], except at four pairs where the rounded
    float product falls just below the integer and the score is one less. *)
Lemma match_pct_up_to_100 :
  forallb (fun total =>
    forallb (fun have =>
      if existsb (fun p => (fst p =? have)%nat && (snd p =? total)%nat)
                 [(29, 50); (29, 100); (57, 100); (58, 100)]%nat
      then match_pct have total =? floor_pct have total - 1
      else match_pct have total =? floor_pct have total)
      (seq 0 (total + 1)))
    (seq 0 101) = true.
Proof. vm_compute. reflexivity. Qed.

(** C2.  The score is not always [floor (100 * have / total)]: for the
    user ingredient "a" and a recipe of fifty ingredients, twenty-nine of
    which contain "a", the handler reports 57 where the integer formula
    gives 58. *)
Theorem score_of_29_in_50 :
  List.length (Recipe.ingredients big_stew) = 50%nat /\
  exists s,
    suggestions_of (suggest_recipes (input_of ["a"]) (session_over [big_stew]))
      = Some [s] /\
    List.length (RecipeSuggestion.ingredients_have s) = 29%nat /\
    List.length (RecipeSuggestion.ingredients_need s) = 21%nat /\
    RecipeSuggestion.match_percentage s = 57 /\
    floor_pct 29 50 = 58.
Proof.
  split; [reflexivity |].
  eexists. split; [vm_compute; reflexivity |].
  cbn [RecipeSuggestion.ingredients_have RecipeSuggestion.ingredients_need
       RecipeSuggestion.match_percentage].
  repeat split.
Qed.

(* ================================================================== *)
(** ** Names in the answer *)
(* ================================================================== *)

Lemma filter_both_In {A} (p : A -> bool) (l : list A) x :
  In x (filter p l ++ filter (fun y => negb (p y)) l) <-> In x l.
Proof.
  rewrite in_app_iff, !filter_In. destruct (p x); simpl; intuition congruence.
Qed.

(** C7 fails as stated: the names in the answer are not always the names as
    the candidate stores them. *)
Lemma stored_casing_not_kept :
  ~ (forall user_ingredients recipes s,
       In s (rank user_ingredients recipes) ->
       exists recipe,
         In recipe recipes /\ s = suggestion_of user_ingredients recipe /\
         forall x,
           In x (RecipeSuggestion.ingredients_have s ++
                 RecipeSuggestion.ingredients_need s) ->
           In x (map Ingredient.name (Recipe.ingredients recipe))).
Proof.
  intros H.
  destruct (H ["salt"] [salted] (suggestion_of ["salt"] salted))
    as (recipe & Hr & _ & Hx).
  { vm_compute. left. reflexivity. }
  destruct Hr as [<- | []].
  specialize (Hx "salt").
  assert (Hin : In "salt"
                  (RecipeSuggestion.ingredients_have (suggestion_of ["salt"] salted) ++
                   RecipeSuggestion.ingredients_need (suggestion_of ["salt"] salted))).
  { vm_compute. left. reflexivity. }
  apply Hx in Hin. vm_compute in Hin.
  destruct Hin as [Hin | [Hin | []]]; discriminate.
Qed.

(** C7, amended.  For every ranked suggestion the names in
    [ingredients_have] and [ingredients_need] are the lower-cased names of
    the candidate's required ingredients; they are the stored names when
    those are in lower case already. *)
Theorem names_are_lowercased (user_ingredients : list string)
    (recipes : list Recipe.t) (s : RecipeSuggestion.t) :
  In s (rank user_ingredients recipes) ->
  exists recipe,
    In recipe recipes /\ s = suggestion_of user_ingredients recipe /\
    (forall x,
       In x (RecipeSuggestion.ingredients_have s ++ RecipeSuggestion.ingredients_need s) <->
       In x (map (fun ing => lower (Ingredient.name ing)) (Recipe.ingredients recipe))) /\
    ((forall ing, In ing (Recipe.ingredients recipe) ->
                  lower (Ingredient.name ing) = Ingredient.name ing) ->
     forall x,
       In x (RecipeSuggestion.ingredients_have s ++ RecipeSuggestion.ingredients_need s) <->
       In x (map Ingredient.name (Recipe.ingredients recipe))).
Proof.
  intros Hs. apply In_rank in Hs as (recipe & Hr & -> & _).
  exists recipe. rewrite suggestion_have, suggestion_need.
  split; [assumption |]. split; [reflexivity |]. split.
  - intros x. apply filter_both_In.
  - intros Hlow x. rewrite filter_both_In. unfold recipe_ingredients_names.
    rewrite (map_ext_in _ Ingredient.name); [reflexivity | assumption].
Qed.

Lemma names_are_lowercased_witness :
  In (suggestion_of ["salt"] salted) (rank ["salt"] [salted]) /\
  exists recipe,
    In recipe [salted] /\
    forall x,
      In x (RecipeSuggestion.ingredients_have (suggestion_of ["salt"] salted) ++
            RecipeSuggestion.ingredients_need (suggestion_of ["salt"] salted)) <->
      In x (map (fun ing => lower (Ingredient.name ing)) (Recipe.ingredients recipe)).
Proof.
  assert (Hs : In (suggestion_of ["salt"] salted) (rank ["salt"] [salted])).
  { vm_compute. left. reflexivity. }
  split; [exact Hs |].
  destruct (names_are_lowercased _ _ _ Hs) as (recipe & H1 & H2 & H3 & _).
  exists recipe. split; [exact H1 | exact H3].
Defined.

(* ================================================================== *)
(** ** Duplicated user ingredients *)
(* ================================================================== *)

Lemma rank_ext u v recipes :
  (forall r, has_ingredient u r = has_ingredient v r) ->
  (List.length u =? 0)%nat = (List.length v =? 0)%nat ->
  rank u recipes = rank v recipes.
Proof.
  intros Hh Hl. rewrite !rank_kept. f_equal. f_equal. unfold kept.
  rewrite (map_ext _ _ (fun r => suggestion_of_ext u v r Hh)).
  apply filter_ext. intros s. unfold keeps. now rewrite Hl.
Qed.

(** C9.  Appending to the user's list an ingredient that already occurs in
    it leaves the suggestion sequence as it was. *)
Theorem duplicate_ingredient_no_effect (input_data : IngredientInput.t)
    (db : Session) (x : string) :
  In x (IngredientInput.ingredients input_data) ->
  suggestions_of (suggest_recipes (with_extra_ingredient input_data x) db) =
  suggestions_of (suggest_recipes input_data db).
Proof.
  intros Hx.
  assert (Hne : IngredientInput.ingredients input_data <> []).
  { intros E. rewrite E in Hx. contradiction. }
  assert (Hne' : IngredientInput.ingredients (with_extra_ingredient input_data x) <> []).
  { cbn. intros E. apply app_eq_nil in E as [_ E]. discriminate. }
  assert (Hq : query_recipes db (with_extra_ingredient input_data x) =
               query_recipes db input_data) by reflexivity.
  destruct (query_recipes db input_data) as [e | recipes] eqn:Eq.
  { now rewrite (suggest_recipes_raises _ db e Hne Eq),
                (suggest_recipes_raises _ db e Hne' Hq). }
  rewrite (suggest_recipes_ok _ db recipes Hne Eq),
          (suggest_recipes_ok _ db recipes Hne' Hq).
  cbn [suggestions_of RecipeSuggestionsResponse.suggestions].
  f_equal.
  cbn [with_extra_ingredient IngredientInput.ingredients].
  apply rank_ext.
  - apply has_ingredient_ext. intros y.
    unfold normalize_ingredients. rewrite map_app, in_app_iff. simpl.
    split; [| tauto].
    intros [H | [<- | []]]; [assumption |].
    now apply (in_map (fun ing => strip (lower ing))).
  - unfold normalize_ingredients. rewrite !length_map, length_app.
    destruct (IngredientInput.ingredients input_data); [contradiction | reflexivity].
Qed.

Lemma duplicate_ingredient_no_effect_witness :
  In "chicken" (IngredientInput.ingredients (input_of ["chicken"; "garlic"])) /\
  suggestions_of
    (suggest_recipes (with_extra_ingredient (input_of ["chicken"; "garlic"]) "chicken")
                     (session_over [thai_green_curry])) =
  suggestions_of
    (suggest_recipes (input_of ["chicken"; "garlic"]) (session_over [thai_green_curry])).
Proof.
  assert (Hx : In "chicken" (IngredientInput.ingredients (input_of ["chicken"; "garlic"]))).
  { left. reflexivity. }
  split; [exact Hx |].
  exact (duplicate_ingredient_no_effect _ (session_over [thai_green_curry]) _ Hx).
Defined.

(* ================================================================== *)
(** ** Invalid requests and empty results *)
(* ================================================================== *)

(** C6 fails as stated: a body without the ingredient list is not answered
    with status 400. *)
Lemma missing_list_is_not_400 :
  ~ (forall body db,
       (exists d, body = JDict d /\
                  (dict_find d "ingredients" = None \/
                   dict_find d "ingredients" = Some (JList []))) ->
       status_of (post_suggest body db) = 400).
Proof.
  intros H.
  specialize (H (JDict []) (session_over [])).
  assert (E : status_of (post_suggest (JDict []) (session_over [])) = 400).
  { apply H. exists []. split; [reflexivity | left; reflexivity]. }
  vm_compute in E. discriminate.
Qed.

Lemma kept_none user_ingredients recipes :
  user_ingredients <> [] ->
  (forall recipe, In recipe recipes ->
     RecipeSuggestion.match_percentage (suggestion_of user_ingredients recipe) = 0) ->
  kept user_ingredients recipes = [].
Proof.
  intros Hu Hz. unfold kept.
  induction recipes as [| r recipes IH]; simpl; [reflexivity |].
  unfold keeps at 1. rewrite (Hz r) by now left.
  destruct user_ingredients; [contradiction |]. simpl.
  apply IH. intros recipe Hr. apply Hz. now right.
Qed.

(** C6, amended.  A body that passes validation and whose ingredient list
    is empty is answered by the handler with status 400, before the query
    and whatever the database holds; a body whose ingredient list is
    missing, null or not an array does not pass validation and is answered
    with status 422, the handler not being run; and a valid request with at
    least one ingredient and no dietary restriction, every queried recipe of
    which scores 0, is answered with status 200 and no suggestion. *)
Theorem invalid_request_and_no_match (body : json) (db : Session) :
  (forall input_data,
     validate_body body = Some input_data ->
     IngredientInput.ingredients input_data = [] ->
     post_suggest body db =
       inl (HTTPException 400 "Please provide at least one ingredient") /\
     status_of (post_suggest body db) = 400) /\
  ((forall d l, body = JDict d -> dict_find d "ingredients" <> Some (JList l)) ->
   post_suggest body db = inl RequestValidationError /\
   status_of (post_suggest body db) = 422) /\
  (forall input_data,
     validate_body body = Some input_data ->
     IngredientInput.ingredients input_data <> [] ->
     IngredientInput.dietary_restrictions input_data = [] ->
     (forall recipe, In recipe (cuisine_query db input_data) ->
        RecipeSuggestion.match_percentage
          (suggestion_of (normalize_ingredients (IngredientInput.ingredients input_data))
                         recipe) = 0) ->
     status_of (post_suggest body db) = 200 /\
     suggestions_of (post_suggest body db) = Some []).
Proof.
  unfold post_suggest. split; [| split].
  - intros input_data Hvalid Hempty. rewrite Hvalid.
    now rewrite suggest_recipes_empty.
  - intros Hmissing.
    assert (E : validate_body body = None).
    { destruct body as [| b | z | f | s | l | d]; try reflexivity.
      unfold validate_body.
      destruct (dict_find d "ingredients") as [[| b | z | f | s | l | d'] |] eqn:Ei;
        try reflexivity.
      now destruct (Hmissing d l eq_refl). }
    now rewrite E.
  - intros input_data Hvalid Hne Hnone Hzero. rewrite Hvalid.
    rewrite (suggest_recipes_ok _ db _ Hne (query_recipes_ok db _ Hnone)).
    cbn [status_of suggestions_of RecipeSuggestionsResponse.suggestions].
    split; [reflexivity |].
    rewrite rank_kept, kept_none; [reflexivity | | assumption].
    intros E. apply (proj1 (normalize_nil _)) in E. contradiction.
Qed.

Lemma invalid_request_and_no_match_witness :
  status_of (post_suggest (body_of []) (session_over [thai_green_curry])) = 400 /\
  status_of (post_suggest (JDict []) (session_over [thai_green_curry])) = 422 /\
  status_of (post_suggest (JDict [("ingredients", JNull)])
                          (session_over [thai_green_curry])) = 422 /\
  suggestions_of (post_suggest (body_of ["tofu"]) (session_over [thai_green_curry]))
    = Some [].
Proof.
  split; [| split; [| split]].
  - exact (proj2 (proj1 (invalid_request_and_no_match
                           (body_of []) (session_over [thai_green_curry]))
                        (input_of []) eq_refl eq_refl)).
  - apply (proj1 (proj2 (invalid_request_and_no_match
                           (JDict []) (session_over [thai_green_curry])))).
    intros d l E. injection E as <-. discriminate.
  - apply (proj1 (proj2 (invalid_request_and_no_match
                           (JDict [("ingredients", JNull)])
                           (session_over [thai_green_curry])))).
    intros d l E. injection E as <-. discriminate.
  - refine (proj2 (proj2 (proj2 (invalid_request_and_no_match
                                   (body_of ["tofu"])
                                   (session_over [thai_green_curry])))
                         (input_of ["tofu"]) eq_refl _ eq_refl _)).
    + discriminate.
    + intros recipe [<- | []]. vm_compute. reflexivity.
Defined.

(* ================================================================== *)
(** ** Blank user ingredients *)
(* ================================================================== *)

Lemma filter_all {A} (p : A -> bool) (l : list A) :
  (forall x, p x = true) -> filter p l = l.
Proof.
  intros H. induction l as [| x l IH]; simpl; [reflexivity |].
  now rewrite H, IH.
Qed.

Lemma filter_none {A} (p : A -> bool) (l : list A) :
  (forall x, p x = false) -> filter p l = [].
Proof.
  intros H. induction l as [| x l IH]; simpl; [reflexivity |].
  now rewrite H.
Qed.

Lemma normalize_blank ings :
  Forall (fun ing => blank ing = true) ings ->
  Forall (fun u => u = EmptyString) (normalize_ingredients ings).
Proof.
  unfold normalize_ingredients. induction 1 as [| ing ings Hb _ IH]; simpl;
    constructor; [now apply strip_lower_blank | assumption].
Qed.

(** What a recipe gets when the first user ingredient is the empty string. *)
Lemma suggestion_of_empty_string us recipe :
  let s := suggestion_of (EmptyString :: us) recipe in
  RecipeSuggestion.ingredients_have s = recipe_ingredients_names recipe /\
  RecipeSuggestion.ingredients_need s = [] /\
  RecipeSuggestion.match_percentage s = (if requires_some recipe then 100 else 0) /\
  keeps (EmptyString :: us) s = requires_some recipe.
Proof.
  cbv zeta.
  assert (Hp : RecipeSuggestion.match_percentage
                 (suggestion_of (EmptyString :: us) recipe) =
               if requires_some recipe then 100 else 0).
  { rewrite suggestion_pct, filter_all by apply has_ingredient_empty_string.
    unfold recipe_ingredients_names, requires_some. rewrite length_map.
    destruct (Recipe.ingredients recipe) as [| i l]; [reflexivity |].
    apply match_pct_full. simpl. lia. }
  rewrite suggestion_have, suggestion_need.
  repeat split.
  - apply filter_all, has_ingredient_empty_string.
  - apply filter_none. intros r. now rewrite has_ingredient_empty_string.
  - exact Hp.
  - unfold keeps. rewrite Hp. now destruct (requires_some recipe).
Qed.

Lemma kept_empty_string us recipes :
  kept (EmptyString :: us) recipes =
  map (suggestion_of (EmptyString :: us)) (filter requires_some recipes).
Proof.
  unfold kept. induction recipes as [| r recipes IH]; simpl; [reflexivity |].
  destruct (suggestion_of_empty_string us r) as (_ & _ & _ & Hk).
  rewrite Hk. destruct (requires_some r); simpl; now rewrite IH.
Qed.

Lemma rank_empty_string us recipes :
  rank (EmptyString :: us) recipes =
  firstn 10 (map (suggestion_of (EmptyString :: us)) (filter requires_some recipes)).
Proof.
  rewrite rank_kept, kept_empty_string. f_equal.
  apply sort_desc_id, (constant_key_sorted _ 100).
  apply Forall_forall. intros s Hs.
  apply in_map_iff in Hs as (r & <- & Hr). apply filter_In in Hr as [_ Hr].
  destruct (suggestion_of_empty_string us r) as (_ & _ & Hp & _).
  now rewrite Hp, Hr.
Qed.

(** C10 fails as stated: with more than ten matching recipes a candidate
    that scores 100 is left out of the answer. *)
Lemma blank_match_left_out :
  ~ (forall input_data db recipes recipe,
       IngredientInput.ingredients input_data <> [] ->
       Forall (fun ing => blank ing = true) (IngredientInput.ingredients input_data) ->
       query_recipes db input_data = inr recipes ->
       In recipe recipes ->
       Recipe.ingredients recipe <> [] ->
       exists l,
         suggestions_of (suggest_recipes input_data db) = Some l /\
         In (suggestion_of (normalize_ingredients (IngredientInput.ingredients input_data))
                           recipe) l).
Proof.
  intros H.
  destruct (H (input_of ["  "]) (session_over eleven_recipes) eleven_recipes
              (recipe_with 10 "Toast" ["bread"])) as (l & Hl & Hin).
  - discriminate.
  - repeat constructor.
  - reflexivity.
  - vm_compute. do 10 right. left. reflexivity.
  - discriminate.
  - vm_compute in Hl. injection Hl as <-. vm_compute in Hin.
    repeat (destruct Hin as [Hin | Hin]; [discriminate |]). exact Hin.
Qed.

(** C10, amended.  When the ingredient list is not empty and holds only
    blank strings, the request is not rejected by the emptiness check,
    every normalized user ingredient is the empty string, and every recipe
    with at least one required ingredient has all of them satisfied and
    scores 100; when moreover the request has no dietary restriction, the
    answer consists of the first ten such recipes in the order of the
    query. *)
Theorem blank_ingredients_match_all (input_data : IngredientInput.t) (db : Session) :
  IngredientInput.ingredients input_data <> [] ->
  Forall (fun ing => blank ing = true) (IngredientInput.ingredients input_data) ->
  suggest_recipes input_data db <>
    inl (HTTPException 400 "Please provide at least one ingredient") /\
  normalize_ingredients (IngredientInput.ingredients input_data) <> [] /\
  Forall (fun u => u = EmptyString)
         (normalize_ingredients (IngredientInput.ingredients input_data)) /\
  (forall recipe,
     Recipe.ingredients recipe <> [] ->
     RecipeSuggestion.ingredients_have
       (suggestion_of (normalize_ingredients (IngredientInput.ingredients input_data))
                      recipe) = recipe_ingredients_names recipe /\
     RecipeSuggestion.ingredients_need
       (suggestion_of (normalize_ingredients (IngredientInput.ingredients input_data))
                      recipe) = [] /\
     RecipeSuggestion.match_percentage
       (suggestion_of (normalize_ingredients (IngredientInput.ingredients input_data))
                      recipe) = 100) /\
  (IngredientInput.dietary_restrictions input_data = [] ->
   status_of (suggest_recipes input_data db) = 200 /\
   suggestions_of (suggest_recipes input_data db) =
     Some (firstn 10
             (map (suggestion_of
                     (normalize_ingredients (IngredientInput.ingredients input_data)))
                  (filter requires_some (cuisine_query db input_data))))).
Proof.
  intros Hne Hb.
  assert (H400 : suggest_recipes input_data db <>
                 inl (HTTPException 400 "Please provide at least one ingredient")).
  { destruct (query_recipes db input_data) as [e | recipes] eqn:Eq.
    - rewrite (suggest_recipes_raises _ db e Hne Eq). discriminate.
    - rewrite (suggest_recipes_ok _ db recipes Hne Eq). discriminate. }
  split; [exact H400 |].
  assert (Hok : IngredientInput.dietary_restrictions input_data = [] ->
                suggest_recipes input_data db = _)
    by (intros Hd; exact (suggest_recipes_ok _ db _ Hne (query_recipes_ok db _ Hd))).
  pose proof (normalize_blank _ Hb) as Hn.
  destruct (normalize_ingredients (IngredientInput.ingredients input_data))
    as [| u us] eqn:E.
  { apply (proj1 (normalize_nil _)) in E. contradiction. }
  pose proof (Forall_inv Hn) as Hu. simpl in Hu. subst u.
  split; [discriminate |]. split; [assumption |]. split.
  - intros recipe Hr.
    destruct (suggestion_of_empty_string us recipe) as (H1 & H2 & H3 & _).
    repeat split; try assumption.
    rewrite H3. unfold requires_some.
    destruct (Recipe.ingredients recipe); [contradiction | reflexivity].
  - intros Hd. rewrite (Hok Hd).
    cbn [status_of suggestions_of RecipeSuggestionsResponse.suggestions].
    split; [reflexivity |]. now rewrite rank_empty_string.
Qed.

Lemma blank_ingredients_match_all_witness :
  IngredientInput.ingredients (input_of ["  "; ""]) <> [] /\
  Forall (fun ing => blank ing = true) (IngredientInput.ingredients (input_of ["  "; ""])) /\
  suggestions_of (suggest_recipes (input_of ["  "; ""]) (session_over eleven_recipes)) =
    Some (firstn 10
            (map (suggestion_of
                    (normalize_ingredients (IngredientInput.ingredients (input_of ["  "; ""]))))
                 (filter requires_some
                         (cuisine_query (session_over eleven_recipes)
                                        (input_of ["  "; ""]))))).
Proof.
  assert (Hne : IngredientInput.ingredients (input_of ["  "; ""]) <> []) by discriminate.
  assert (Hb : Forall (fun ing => blank ing = true)
                      (IngredientInput.ingredients (input_of ["  "; ""]))).
  { repeat constructor. }
  split; [exact Hne |]. split; [exact Hb |].
  exact (proj2 (proj2 (proj2 (proj2 (proj2
           (blank_ingredients_match_all _ (session_over eleven_recipes) Hne Hb))))
               eq_refl)).
Defined.

(* ================================================================== *)
(** ** Further properties of the ranking *)
(* ================================================================== *)

Lemma filter_firstn_skipn {A} (p : A -> bool) n (l : list A) :
  filter p l = filter p (firstn n l) ++ filter p (skipn n l).
Proof. now rewrite <- filter_app, firstn_skipn. Qed.

Lemma sorted_app_le {A} (key : A -> Z) (l1 l2 : list A) :
  StronglySorted (desc key) (l1 ++ l2) ->
  forall a b, In a l1 -> In b l2 -> key b <= key a.
Proof.
  induction l1 as [| x l1 IH]; simpl; intros Hs a b Ha Hb; [contradiction |].
  inversion Hs as [| ? ? Hs' Hx]; subst.
  destruct Ha as [<- | Ha].
  - rewrite Forall_forall in Hx. apply (Hx b). apply in_or_app. now right.
  - now apply (IH Hs' a b).
Qed.

(** The slice keeps the best: what is cut off is a rearrangement of the
    rest of the kept suggestions and none of it scores more than a
    suggestion that is returned. *)
Theorem cap_keeps_best (user_ingredients : list string) (recipes : list Recipe.t) :
  exists dropped,
    Permutation (kept user_ingredients recipes)
                (rank user_ingredients recipes ++ dropped) /\
    forall s d, In s (rank user_ingredients recipes) -> In d dropped ->
                RecipeSuggestion.match_percentage d <= RecipeSuggestion.match_percentage s.
Proof.
  rewrite rank_kept.
  set (sorted := sort_desc RecipeSuggestion.match_percentage
                           (kept user_ingredients recipes)).
  exists (skipn 10 sorted). split.
  - rewrite firstn_skipn. apply sort_desc_perm.
  - apply (sorted_app_le RecipeSuggestion.match_percentage).
    rewrite firstn_skipn. apply sort_desc_sorted.
Qed.

(** Suggestions of equal score come out in the order in which their
    recipes were queried: for every score, the returned suggestions of that
    score are an initial segment of the kept ones of that score. *)
Theorem ties_keep_query_order (user_ingredients : list string)
    (recipes : list Recipe.t) (score : Z) :
  exists rest,
    filter (fun s => RecipeSuggestion.match_percentage s =? score)
           (kept user_ingredients recipes) =
    filter (fun s => RecipeSuggestion.match_percentage s =? score)
           (rank user_ingredients recipes) ++ rest.
Proof.
  rewrite rank_kept.
  rewrite <- (sort_desc_stable RecipeSuggestion.match_percentage score
                               (kept user_ingredients recipes)).
  eexists. apply (filter_firstn_skipn _ 10).
Qed.

(** The number of suggestions is the number of kept candidates capped at
    ten, and never more than [total_recipes_searched]. *)
Theorem suggestion_count (input_data : IngredientInput.t) (db : Session)
    (resp : RecipeSuggestionsResponse.t) :
  suggest_recipes input_data db = inr resp ->
  exists recipes,
    query_recipes db input_data = inr recipes /\
    List.length (RecipeSuggestionsResponse.suggestions resp) =
      Nat.min 10 (List.length
                    (kept (normalize_ingredients (IngredientInput.ingredients input_data))
                          recipes)) /\
    (List.length (RecipeSuggestionsResponse.suggestions resp) <=
     RecipeSuggestionsResponse.total_recipes_searched resp)%nat /\
    RecipeSuggestionsResponse.total_recipes_searched resp = List.length recipes /\
    (RecipeSuggestionsResponse.total_recipes_searched resp <=
     List.length (recipes_table db))%nat.
Proof.
  intros H.
  assert (Hne : IngredientInput.ingredients input_data <> []).
  { intros E. rewrite (suggest_recipes_empty _ db E) in H. discriminate. }
  destruct (query_recipes db input_data) as [e | rs] eqn:Eq.
  { rewrite (suggest_recipes_raises _ db e Hne Eq) in H. discriminate. }
  rewrite (suggest_recipes_ok _ db rs Hne Eq) in H. injection H as <-.
  exists rs. split; [reflexivity |].
  cbn [RecipeSuggestionsResponse.suggestions
       RecipeSuggestionsResponse.total_recipes_searched].
  set (u := normalize_ingredients (IngredientInput.ingredients input_data)).
  assert (Hk : (List.length (kept u rs) <= List.length rs)%nat).
  { unfold kept. etransitivity; [apply filter_length_le |]. now rewrite length_map. }
  assert (Hl : List.length (rank u rs) = Nat.min 10 (List.length (kept u rs))).
  { rewrite rank_kept, length_firstn.
    now rewrite <- (Permutation_length (sort_desc_perm _ (kept u rs))). }
  repeat split; try assumption; try lia.
  apply query_recipes_inr in Eq as [_ ->]. unfold cuisine_query.
  destruct (IngredientInput.cuisine_preference input_data) as [[| c p] |];
    try lia. apply filter_length_le.
Qed.

Lemma suggestion_count_witness :
  suggest_recipes (input_of ["chicken"; "garlic"]) (session_over [thai_green_curry; salted])
    = inr (RecipeSuggestionsResponse.mk
             [suggestion_of ["chicken"; "garlic"] thai_green_curry]
             "Found 1 recipes matching your 2 ingredients!" 2) /\
  (1 <= 2)%nat.
Proof.
  assert (H : suggest_recipes (input_of ["chicken"; "garlic"])
                              (session_over [thai_green_curry; salted])
              = inr (RecipeSuggestionsResponse.mk
                       [suggestion_of ["chicken"; "garlic"] thai_green_curry]
                       "Found 1 recipes matching your 2 ingredients!" 2)).
  { vm_compute. reflexivity. }
  split; [exact H |].
  destruct (suggestion_count _ _ _ H) as (recipes & _ & _ & Hle & _).
  exact Hle.
Defined.

Lemma query_recipes_same_filters db i1 i2 :
  IngredientInput.dietary_restrictions i1 = IngredientInput.dietary_restrictions i2 ->
  IngredientInput.cuisine_preference i1 = IngredientInput.cuisine_preference i2 ->
  query_recipes db i1 = query_recipes db i2.
Proof. intros Hd Hc. unfold query_recipes, cuisine_query. now rewrite Hd, Hc. Qed.

(** The order in which the user lists the ingredients does not matter: two
    requests whose ingredient lists are rearrangements of each other, with
    the same filters, get the same answer, message and counts included. *)
Theorem ingredient_order_irrelevant (i1 i2 : IngredientInput.t) (db : Session) :
  Permutation (IngredientInput.ingredients i1) (IngredientInput.ingredients i2) ->
  IngredientInput.dietary_restrictions i1 = IngredientInput.dietary_restrictions i2 ->
  IngredientInput.cuisine_preference i1 = IngredientInput.cuisine_preference i2 ->
  suggest_recipes i1 db = suggest_recipes i2 db.
Proof.
  intros Hp Hd Hc.
  destruct (IngredientInput.ingredients i1) as [| a l1] eqn:E1.
  - apply Permutation_nil in Hp.
    now rewrite (suggest_recipes_empty i1 db E1), (suggest_recipes_empty i2 db Hp).
  - assert (Hne1 : IngredientInput.ingredients i1 <> []) by (rewrite E1; discriminate).
    assert (Hne2 : IngredientInput.ingredients i2 <> []).
    { intros E2. rewrite E2 in Hp. apply Permutation_sym, Permutation_nil in Hp.
      discriminate. }
    rewrite <- E1 in Hp.
    pose proof (query_recipes_same_filters db i1 i2 Hd Hc) as Hq.
    destruct (query_recipes db i2) as [e | recipes] eqn:Eq.
    { now rewrite (suggest_recipes_raises i1 db e Hne1 Hq),
                  (suggest_recipes_raises i2 db e Hne2 Eq). }
    rewrite (suggest_recipes_ok i1 db recipes Hne1 Hq),
            (suggest_recipes_ok i2 db recipes Hne2 Eq).
    assert (Hn : Permutation (normalize_ingredients (IngredientInput.ingredients i1))
                             (normalize_ingredients (IngredientInput.ingredients i2))).
    { unfold normalize_ingredients. now apply Permutation_map. }
    rewrite (rank_ext _ (normalize_ingredients (IngredientInput.ingredients i2))).
    + now rewrite (Permutation_length Hn).
    + apply has_ingredient_ext. intros x. split; apply Permutation_in;
        [assumption | now apply Permutation_sym].
    + now rewrite (Permutation_length Hn).
Qed.

Lemma ingredient_order_irrelevant_witness :
  suggest_recipes (input_of ["chicken"; "garlic"]) (session_over [thai_green_curry]) =
  suggest_recipes (input_of ["garlic"; "chicken"]) (session_over [thai_green_curry]).
Proof.
  apply (ingredient_order_irrelevant (input_of ["chicken"; "garlic"])
                                     (input_of ["garlic"; "chicken"])).
  - apply perm_swap.
  - reflexivity.
  - reflexivity.
Defined.

Lemma has_ingredient_app u v r :
  has_ingredient (u ++ v) r = has_ingredient u r || has_ingredient v r.
Proof. unfold has_ingredient. apply existsb_app. Qed.

Lemma filter_length_mono {A} (p q : A -> bool) (l : list A) :
  (forall x, p x = true -> q x = true) ->
  (List.length (filter p l) <= List.length (filter q l))%nat.
Proof.
  intros H. induction l as [| x l IH]; simpl; [lia |].
  destruct (p x) eqn:Ep.
  - rewrite (H x Ep). simpl. lia.
  - destruct (q x); simpl; lia.
Qed.

(** More user ingredients never lose a match: every required name that is
    satisfied stays satisfied when ingredients are added to the user's list,
    the list of satisfied names does not get shorter and the list of missing
    names does not get longer. *)
Theorem more_ingredients_keep_matches (u v : list string) (recipe : Recipe.t) :
  (forall r,
     In r (RecipeSuggestion.ingredients_have (suggestion_of u recipe)) ->
     In r (RecipeSuggestion.ingredients_have (suggestion_of (u ++ v) recipe))) /\
  (List.length (RecipeSuggestion.ingredients_have (suggestion_of u recipe)) <=
   List.length (RecipeSuggestion.ingredients_have (suggestion_of (u ++ v) recipe)))%nat /\
  (List.length (RecipeSuggestion.ingredients_need (suggestion_of (u ++ v) recipe)) <=
   List.length (RecipeSuggestion.ingredients_need (suggestion_of u recipe)))%nat.
Proof.
  rewrite !suggestion_have, !suggestion_need. split; [| split].
  - intros r. rewrite !filter_In. intros [Hr Hh]. split; [assumption |].
    rewrite has_ingredient_app, Hh. reflexivity.
  - apply filter_length_mono. intros x Hx. now rewrite has_ingredient_app, Hx.
  - apply filter_length_mono. intros x. rewrite has_ingredient_app.
    destruct (has_ingredient u x); [discriminate | reflexivity].
Qed.

Lemma more_ingredients_keep_matches_witness :
  In "chicken breast"
     (RecipeSuggestion.ingredients_have (suggestion_of ["chicken"] thai_green_curry)) /\
  In "chicken breast"
     (RecipeSuggestion.ingredients_have
        (suggestion_of (["chicken"] ++ ["basil"]) thai_green_curry)).
Proof.
  assert (H : In "chicken breast"
                 (RecipeSuggestion.ingredients_have
                    (suggestion_of ["chicken"] thai_green_curry))).
  { vm_compute. left. reflexivity. }
  split; [exact H |].
  exact (proj1 (more_ingredients_keep_matches ["chicken"] ["basil"] thai_green_curry)
               _ H).
Defined.

Lemma append_empty_r s : (s ++ EmptyString)%string = s.
Proof. induction s as [| c s IH]; simpl; [reflexivity | now rewrite IH]. Qed.

Lemma py_in_refl s : py_in s s = true.
Proof.
  apply py_in_spec. exists EmptyString, EmptyString. simpl.
  now rewrite append_empty_r.
Qed.

(** A user ingredient that, once lower-cased and trimmed, is the lower-cased
    name of a required ingredient satisfies that ingredient. *)
Theorem same_name_is_satisfied (ings : list string) (recipe : Recipe.t)
    (u : string) (ing : Ingredient.t) :
  In u ings ->
  In ing (Recipe.ingredients recipe) ->
  strip (lower u) = lower (Ingredient.name ing) ->
  In (lower (Ingredient.name ing))
     (RecipeSuggestion.ingredients_have
        (suggestion_of (normalize_ingredients ings) recipe)).
Proof.
  intros Hu Hi He. rewrite suggestion_have, filter_In. split.
  - unfold recipe_ingredients_names.
    now apply (in_map (fun i => lower (Ingredient.name i))).
  - unfold has_ingredient. apply existsb_exists.
    exists (strip (lower u)). split.
    + unfold normalize_ingredients. now apply (in_map (fun i => strip (lower i))).
    + rewrite He, py_in_refl. reflexivity.
Qed.

Lemma same_name_is_satisfied_witness :
  In "  SALT " ["pepper"; "  SALT "] /\
  In (ingredient_named "Salt") (Recipe.ingredients salted) /\
  In (lower (Ingredient.name (ingredient_named "Salt")))
     (RecipeSuggestion.ingredients_have
        (suggestion_of (normalize_ingredients ["pepper"; "  SALT "]) salted)).
Proof.
  assert (Hu : In "  SALT " ["pepper"; "  SALT "]) by (right; left; reflexivity).
  assert (Hi : In (ingredient_named "Salt") (Recipe.ingredients salted))
    by (left; reflexivity).
  split; [exact Hu |]. split; [exact Hi |].
  exact (same_name_is_satisfied _ salted _ _ Hu Hi eq_refl).
Defined.

(* ================================================================== *)
(** ** Further properties of the score *)
(* ================================================================== *)

Lemma match_pct_grid :
  forallb (fun total =>
    forallb (fun have =>
      let m := match_pct have total in
      let f := floor_pct have total in
      (f - 1 <=? m) && (m <=? f) &&
      ((m =? f) ||
       existsb (fun p => (fst p =? have)%nat && (snd p =? total)%nat)
               [(29, 50); (29, 100); (57, 100); (58, 100)]%nat) &&
      (if (0 <? total)%nat then Bool.eqb (m =? 100) (have =? total)%nat else true) &&
      Bool.eqb (m =? 0) (have =? 0)%nat)
      (seq 0 (total + 1)))
    (seq 0 101) = true.
Proof. vm_compute. reflexivity. Qed.

(** For a recipe of at most a hundred ingredients the score is the integer
    percentage [floor (100 * have / total)] or one less, and one less only
    at 29 of 50, 29 of 100, 57 of 100 and 58 of 100; it is 100 exactly when
    every ingredient is satisfied and 0 exactly when none is. *)
Theorem score_of_small_recipes (have total : nat) :
  (have <= total)%nat -> (total <= 100)%nat ->
  floor_pct have total - 1 <= match_pct have total <= floor_pct have total /\
  (match_pct have total = floor_pct have total \/
   In (have, total) [(29, 50); (29, 100); (57, 100); (58, 100)]%nat) /\
  ((0 < total)%nat -> (match_pct have total = 100 <-> have = total)) /\
  (match_pct have total = 0 <-> have = 0%nat).
Proof.
  intros Hh Ht.
  pose proof match_pct_grid as G.
  rewrite forallb_forall in G. specialize (G total).
  rewrite forallb_forall in G. specialize (G (ltac:(apply in_seq; lia)) have).
  specialize (G ltac:(apply in_seq; lia)). cbv zeta in G.
  apply andb_true_iff in G as [G G5]. apply andb_true_iff in G as [G G4].
  apply andb_true_iff in G as [G G3]. apply andb_true_iff in G as [G1 G2].
  apply Z.leb_le in G1, G2. apply eqb_prop in G5.
  split; [lia |]. split; [| split].
  - apply orb_true_iff in G3 as [G3 | G3]; [left; now apply Z.eqb_eq |].
    right. apply existsb_exists in G3 as ([h t] & Hin & Hp).
    apply andb_true_iff in Hp as [Hp1 Hp2]. simpl in Hp1, Hp2.
    apply Nat.eqb_eq in Hp1, Hp2. now subst.
  - intros Hpos. apply Nat.ltb_lt in Hpos. rewrite Hpos in G4. apply eqb_prop in G4.
    rewrite <- Z.eqb_eq, <- Nat.eqb_eq, G4. reflexivity.
  - rewrite <- Z.eqb_eq, <- Nat.eqb_eq, G5. reflexivity.
Qed.

Lemma score_of_small_recipes_witness :
  (29 <= 50)%nat /\ (50 <= 100)%nat /\
  floor_pct 29 50 - 1 <= match_pct 29 50 <= floor_pct 29 50.
Proof.
  assert (H1 : (29 <= 50)%nat) by lia.
  assert (H2 : (50 <= 100)%nat) by lia.
  split; [exact H1 |]. split; [exact H2 |].
  exact (proj1 (score_of_small_recipes 29 50 H1 H2)).
Defined.

Lemma match_pct_none total : match_pct 0 total = 0.
Proof.
  unfold match_pct. destruct (0 <? total)%nat; [| reflexivity].
  unfold PyFloat.truediv, PyFloat.round_rat. cbn [Z.of_nat Z.eqb].
  vm_compute. reflexivity.
Qed.

(** At any size: a candidate none of whose ingredients is satisfied scores
    0, and a candidate with at least one ingredient, all of them satisfied,
    scores 100. *)
Theorem score_extremes (user_ingredients : list string) (recipe : Recipe.t) :
  (RecipeSuggestion.ingredients_have (suggestion_of user_ingredients recipe) = [] ->
   RecipeSuggestion.match_percentage (suggestion_of user_ingredients recipe) = 0) /\
  (RecipeSuggestion.ingredients_need (suggestion_of user_ingredients recipe) = [] ->
   Recipe.ingredients recipe <> [] ->
   RecipeSuggestion.match_percentage (suggestion_of user_ingredients recipe) = 100).
Proof.
  rewrite suggestion_have, suggestion_need, suggestion_pct. split.
  - intros ->. apply match_pct_none.
  - intros Hn Hne.
    pose proof (filter_split_length (has_ingredient user_ingredients)
                                    (recipe_ingredients_names recipe)) as Hl.
    rewrite Hn in Hl. simpl in Hl. rewrite Nat.add_0_r in Hl. rewrite Hl.
    unfold recipe_ingredients_names. rewrite length_map.
    apply match_pct_full.
    destruct (Recipe.ingredients recipe); [contradiction | simpl; lia].
Qed.

Lemma score_extremes_witness :
  RecipeSuggestion.match_percentage (suggestion_of ["tofu"] thai_green_curry) = 0 /\
  RecipeSuggestion.match_percentage (suggestion_of ["a"] salted) = 100.
Proof.
  split.
  - apply (proj1 (score_extremes ["tofu"] thai_green_curry)). vm_compute. reflexivity.
  - apply (proj2 (score_extremes ["a"] salted)).
    + vm_compute. reflexivity.
    + discriminate.
Defined.

(** With at least one user ingredient, a recipe of at most a hundred
    ingredients passes the filter exactly when one of its ingredients is
    satisfied. *)
Theorem listed_iff_some_match (user_ingredients : list string) (recipe : Recipe.t) :
  user_ingredients <> [] ->
  (List.length (Recipe.ingredients recipe) <= 100)%nat ->
  (keeps user_ingredients (suggestion_of user_ingredients recipe) = true <->
   RecipeSuggestion.ingredients_have (suggestion_of user_ingredients recipe) <> []).
Proof.
  intros Hu Hl. unfold keeps.
  destruct user_ingredients as [| u us]; [contradiction |].
  cbn [List.length Nat.eqb]. rewrite orb_false_r, Z.ltb_lt.
  rewrite suggestion_pct, suggestion_have.
  set (have := filter (has_ingredient (u :: us)) (recipe_ingredients_names recipe)).
  assert (Hle : (List.length have <= List.length (Recipe.ingredients recipe))%nat).
  { unfold have. etransitivity; [apply filter_length_le |].
    unfold recipe_ingredients_names. now rewrite length_map. }
  destruct (score_of_small_recipes _ _ Hle Hl) as (_ & _ & _ & Hz).
  pose proof (match_pct_bounds _ _ Hle) as Hb.
  split.
  - intros Hpos E. rewrite E in Hpos. simpl in Hpos.
    rewrite match_pct_none in Hpos. lia.
  - intros Hne.
    assert (List.length have <> 0%nat).
    { intros E. apply length_zero_iff_nil in E. contradiction. }
    assert (match_pct (List.length have) (List.length (Recipe.ingredients recipe)) <> 0)
      by (rewrite Hz; assumption).
    lia.
Qed.

Lemma listed_iff_some_match_witness :
  ["chicken"] <> [] /\
  (List.length (Recipe.ingredients thai_green_curry) <= 100)%nat /\
  keeps ["chicken"] (suggestion_of ["chicken"] thai_green_curry) = true.
Proof.
  assert (Hu : ["chicken"] <> []) by discriminate.
  assert (Hl : (List.length (Recipe.ingredients thai_green_curry) <= 100)%nat).
  { vm_compute. repeat constructor. }
  split; [exact Hu |]. split; [exact Hl |].
  apply (proj2 (listed_iff_some_match ["chicken"] thai_green_curry Hu Hl)).
  vm_compute. discriminate.
Defined.

(* ================================================================== *)
(** ** The query *)
(* ================================================================== *)



(* ================================================================== *)
(** ** The displayed time *)
(* ================================================================== *)

Lemma str_of_Z_inj a b : str_of_Z a = str_of_Z b -> a = b.
Proof.
  unfold str_of_Z. intros H.
  assert (Hn : forall z, Z.to_int z <> Decimal.Pos Decimal.Nil /\
                         Z.to_int z <> Decimal.Neg Decimal.Nil).
  { intros [| p | p]; simpl; split; try discriminate;
      intros E; injection E as E; now apply Unsigned.to_uint_nonnil in E. }
  apply DecimalZ.to_int_inj.
  assert (E : Some (Z.to_int a) = Some (Z.to_int b)).
  { rewrite <- (NilZero.isi (Z.to_int a)), <- (NilZero.isi (Z.to_int b));
      try apply Hn. now rewrite H. }
  now injection E.
Qed.

Lemma uint_chars_numeric d : all_chars numeric_char (NilEmpty.string_of_uint d) = true.
Proof. induction d; simpl; try assumption; reflexivity. Qed.

Lemma str_of_Z_numeric z : all_chars numeric_char (str_of_Z z) = true.
Proof.
  unfold str_of_Z. destruct (Z.to_int z) as [d | d]; simpl.
  - destruct d; try apply uint_chars_numeric; reflexivity.
  - destruct d; try apply uint_chars_numeric; reflexivity.
Qed.

(** A string of numeric characters followed by another character splits in
    one way only. *)
Lemma numeric_prefix_unique s1 s2 c1 c2 t1 t2 :
  all_chars numeric_char s1 = true -> all_chars numeric_char s2 = true ->
  numeric_char c1 = false -> numeric_char c2 = false ->
  (s1 ++ String c1 t1)%string = (s2 ++ String c2 t2)%string ->
  s1 = s2 /\ c1 = c2 /\ t1 = t2.
Proof.
  revert s2. induction s1 as [| a s1 IH]; intros [| b s2] H1 H2 Hc1 Hc2 E;
    simpl in *.
  - injection E as -> ->. auto.
  - injection E as -> _. apply andb_true_iff in H2 as [H2 _]. congruence.
  - injection E as -> _. apply andb_true_iff in H1 as [H1 _]. congruence.
  - injection E as -> E.
    apply andb_true_iff in H1 as [_ H1]. apply andb_true_iff in H2 as [_ H2].
    destruct (IH s2 H1 H2 Hc1 Hc2 E) as (-> & -> & ->). auto.
Qed.

(** The three shapes of the displayed time, each as digits followed by a
    first character that is not numeric. *)
Lemma total_time_display_shape r :
  let total := Recipe.total_time_minutes r in
  (total < 60 /\
   Recipe.total_time_display r = (str_of_Z total ++ String " " "minutes")%string) \/
  (60 <= total /\ total mod 60 = 0 /\
   Recipe.total_time_display r = (str_of_Z (total / 60) ++ String "h" "")%string) \/
  (60 <= total /\ total mod 60 <> 0 /\
   Recipe.total_time_display r =
     (str_of_Z (total / 60) ++
      String "h" (String " " (str_of_Z (total mod 60) ++ String "m" "")))%string).
Proof.
  cbv zeta. unfold Recipe.total_time_display.
  destruct (60 <=? Recipe.total_time_minutes r) eqn:E.
  - apply Z.leb_le in E.
    destruct (Recipe.total_time_minutes r mod 60 =? 0) eqn:Em.
    + apply Z.eqb_eq in Em. right. left. auto.
    + apply Z.eqb_neq in Em. right. right. auto.
  - apply Z.leb_gt in E. left. auto.
Qed.

(** The displayed time determines the total number of minutes: two recipes
    that show the same time take the same time. *)
Theorem total_time_display_unambiguous (r1 r2 : Recipe.t) :
  Recipe.total_time_display r1 = Recipe.total_time_display r2 ->
  Recipe.total_time_minutes r1 = Recipe.total_time_minutes r2.
Proof.
  intros H.
  pose proof (str_of_Z_numeric) as Hnum.
  assert (Hsp : numeric_char " " = false) by reflexivity.
  assert (Hh : numeric_char "h" = false) by reflexivity.
  assert (Hm : numeric_char "m" = false) by reflexivity.
  pose proof (Z.div_mod (Recipe.total_time_minutes r1) 60 ltac:(lia)) as D1.
  pose proof (Z.div_mod (Recipe.total_time_minutes r2) 60 ltac:(lia)) as D2.
  destruct (total_time_display_shape r1) as [[L1 E1] | [(L1 & M1 & E1) | (L1 & M1 & E1)]];
  destruct (total_time_display_shape r2) as [[L2 E2] | [(L2 & M2 & E2) | (L2 & M2 & E2)]];
    rewrite E1, E2 in H;
    apply numeric_prefix_unique in H as (Hs & Hc & Ht);
    try apply Hnum; try assumption; try discriminate.
  - now apply str_of_Z_inj.
  - apply str_of_Z_inj in Hs. lia.
  - apply str_of_Z_inj in Hs. injection Ht as Ht.
    apply numeric_prefix_unique in Ht as (Hs' & _ & _);
      try apply Hnum; try assumption.
    apply str_of_Z_inj in Hs'. lia.
Qed.

Lemma total_time_display_unambiguous_witness :
  Recipe.total_time_display (recipe_with 1 "Stew" []) =
    Recipe.total_time_display
      (Recipe.mk 2 "Soup" None None (Some 45) None None None []) /\
  Recipe.total_time_minutes (recipe_with 1 "Stew" []) =
    Recipe.total_time_minutes
      (Recipe.mk 2 "Soup" None None (Some 45) None None None []).
Proof.
  assert (H : Recipe.total_time_display (recipe_with 1 "Stew" []) =
              Recipe.total_time_display
                (Recipe.mk 2 "Soup" None None (Some 45) None None None [])).
  { vm_compute. reflexivity. }
  split; [exact H |].
  exact (total_time_display_unambiguous _ _ H).
Defined.

(* ================================================================== *)
(** ** Looking one recipe up *)
(* ================================================================== *)

(** [get_recipe] answers 404 exactly when no row carries the asked id;
    otherwise it answers with the response of a row of the table that
    carries it, and the ingredient names are the stored ones, in order. *)
Theorem get_recipe_found_or_404 (recipe_id : Z) (table : list RecipeRow.t) :
  (get_recipe recipe_id table = inl (HTTPException 404 "Recipe not found") <->
   forall row, In row table -> Recipe.id (RecipeRow.recipe row) <> recipe_id) /\
  (forall resp, get_recipe recipe_id table = inr resp ->
     RecipeResponse.id resp = recipe_id /\
     exists row,
       In row table /\ resp = recipe_response row /\
       map IngredientResponse.name (RecipeResponse.ingredients resp) =
       map Ingredient.name (Recipe.ingredients (RecipeRow.recipe row))).
Proof.
  unfold get_recipe.
  destruct (find (fun row => Recipe.id (RecipeRow.recipe row) =? recipe_id) table)
    as [row |] eqn:E.
  - apply find_some in E as [Hin Hid]. apply Z.eqb_eq in Hid. split.
    + split; [discriminate |]. intros H. now apply H in Hin.
    + intros resp H. injection H as <-. split; [exact Hid |].
      exists row. repeat split; try assumption.
      cbn. rewrite map_map. reflexivity.
  - split; [| discriminate].
    split; [| reflexivity]. intros _ row Hin Hid.
    apply (find_none _ _ E) in Hin. apply Z.eqb_neq in Hin. contradiction.
Qed.

(* ================================================================== *)
(** ** The ingredient names of a vision result *)
(* ================================================================== *)

Lemma simple_fold l acc :
  fold_left simple_step l acc = acc ++ flat_map simple_names l.
Proof.
  revert acc. induction l as [| ing l IH]; intros acc; simpl.
  - now rewrite app_nil_r.
  - rewrite IH. destruct ing as [| b | z | f | s | l' | d]; simpl;
      try reflexivity; try now rewrite <- app_assoc.
    destruct (truthy (dict_get d "name" (JStr ""))); simpl;
      [now rewrite <- app_assoc | reflexivity].
Qed.

(** For a successful vision result whose ingredients are dicts with a
    string name, the list is made of the names, in order, the entries with
    an empty name being skipped. *)
Theorem simple_list_reads_names (vision_result data : list (string * json))
    (ingredients : list json) (names : list string) :
  truthy (dict_get vision_result "success" JNull) = true ->
  dict_get vision_result "data" (JDict []) = JDict data ->
  dict_get data "ingredients" (JList []) = JList ingredients ->
  Forall2 (fun ing name =>
             exists d, ing = JDict d /\ dict_get d "name" (JStr "") = JStr name)
          ingredients names ->
  get_simple_ingredient_list vision_result =
    inr (map JStr (filter (fun name => negb (is_empty name)) names)).
Proof.
  intros Hs Hd Hi Hn. unfold get_simple_ingredient_list.
  rewrite Hs, Hd, Hi. cbn [negb iterate]. rewrite simple_fold. cbn [app]. f_equal.
  clear Hi.
  induction Hn as [| ing name l ns (d & -> & Hname) _ IH]; [reflexivity |].
  cbn [flat_map simple_names filter]. rewrite Hname. cbn [truthy].
  destruct (negb (is_empty name)); cbn [app map]; now rewrite IH.
Qed.

Lemma simple_list_reads_names_witness :
  get_simple_ingredient_list
    [("success", JBool true);
     ("data", JDict [("ingredients",
                      JList [ingredient_entry "eggs" "dairy";
                             ingredient_entry "" "pantry";
                             ingredient_entry "milk" "dairy"])])] =
  inr [JStr "eggs"; JStr "milk"].
Proof.
  apply (simple_list_reads_names _
           [("ingredients",
             JList [ingredient_entry "eggs" "dairy"; ingredient_entry "" "pantry";
                    ingredient_entry "milk" "dairy"])]
           [ingredient_entry "eggs" "dairy"; ingredient_entry "" "pantry";
            ingredient_entry "milk" "dairy"]
           ["eggs"; ""; "milk"]).
  - reflexivity.
  - reflexivity.
  - reflexivity.
  - repeat constructor; eexists; split; reflexivity.
Defined.

(** For a successful vision result whose ingredients are plain strings,
    the list is the ingredients as they are, empty strings included. *)
Theorem simple_list_keeps_strings (vision_result data : list (string * json))
    (names : list string) :
  truthy (dict_get vision_result "success" JNull) = true ->
  dict_get vision_result "data" (JDict []) = JDict data ->
  dict_get data "ingredients" (JList []) = JList (map JStr names) ->
  get_simple_ingredient_list vision_result = inr (map JStr names).
Proof.
  intros Hs Hd Hi. unfold get_simple_ingredient_list.
  rewrite Hs, Hd, Hi. cbn [negb iterate]. rewrite simple_fold. cbn [app]. f_equal.
  clear Hi. induction names as [| n names IH]; [reflexivity |].
  cbn [map flat_map simple_names app]. now rewrite IH.
Qed.

Lemma simple_list_keeps_strings_witness :
  get_simple_ingredient_list
    [("success", JBool true);
     ("data", JDict [("ingredients", JList (map JStr ["eggs"; ""; "milk"]))])] =
  inr (map JStr ["eggs"; ""; "milk"]).
Proof.
  apply (simple_list_keeps_strings _
           [("ingredients", JList (map JStr ["eggs"; ""; "milk"]))]).
  - reflexivity.
  - reflexivity.
  - reflexivity.
Defined.

(** When the function raises.  It never does for a result that is not
    flagged successful; for a successful one it raises [AttributeError]
    exactly when the data is not a dict, and [TypeError] exactly when the
    data is a dict whose ingredients are null, a boolean or a number.  When
    it returns, the list is never longer than a list of ingredients. *)
Theorem simple_list_errors (vision_result : list (string * json)) :
  (truthy (dict_get vision_result "success" JNull) = false ->
   get_simple_ingredient_list vision_result = inr []) /\
  (get_simple_ingredient_list vision_result = inl AttributeError <->
   truthy (dict_get vision_result "success" JNull) = true /\
   forall data, dict_get vision_result "data" (JDict []) <> JDict data) /\
  (get_simple_ingredient_list vision_result = inl TypeError <->
   truthy (dict_get vision_result "success" JNull) = true /\
   exists data,
     dict_get vision_result "data" (JDict []) = JDict data /\
     match dict_get data "ingredients" (JList []) with
     | JNull | JBool _ | JInt _ | JFloat _ => True
     | _ => False
     end) /\
  (forall data ingredients result,
     dict_get vision_result "data" (JDict []) = JDict data ->
     dict_get data "ingredients" (JList []) = JList ingredients ->
     get_simple_ingredient_list vision_result = inr result ->
     (List.length result <= List.length ingredients)%nat).
Proof.
  unfold get_simple_ingredient_list.
  destruct (truthy (dict_get vision_result "success" JNull)); cbn [negb].
  - split; [discriminate |].
    destruct (dict_get vision_result "data" (JDict [])) as [| b | z | f | s | l | data].
    1-6: split; [split; [intros _; split; [reflexivity | discriminate] | reflexivity] |];
      split; [split; [discriminate | intros [_ (data & E & _)]; discriminate] |];
      intros data ingredients result E; discriminate.
    split; [| split].
    + split.
      * destruct (dict_get data "ingredients" (JList [])); cbn [iterate]; discriminate.
      * intros [_ H]. now destruct (H data).
    + split.
      * intros H. split; [reflexivity |]. exists data. split; [reflexivity |].
        destruct (dict_get data "ingredients" (JList [])); cbn [iterate] in H;
          try exact I; discriminate.
      * intros [_ (data' & E & H)]. injection E as <-.
        destruct (dict_get data "ingredients" (JList [])); cbn [iterate];
          try reflexivity; contradiction.
    + intros data' ingredients result E Hi. injection E as <-. rewrite Hi.
      cbn [iterate]. intros H. injection H as <-.
      rewrite simple_fold. cbn [app].
      clear Hi. induction ingredients as [| ing l IH]; [simpl; lia |].
      cbn [flat_map]. rewrite length_app. cbn [List.length].
      assert (List.length (simple_names ing) <= 1)%nat.
      { destruct ing as [| b | z | f | s | l' | d]; cbn; try lia.
        destruct (truthy (dict_get d "name" (JStr ""))); cbn; lia. }
      lia.
  - split; [reflexivity |].
    split; [split; [discriminate | intros [H _]; discriminate] |].
    split; [split; [discriminate | intros [H _]; discriminate] |].
    intros data ingredients result _ _ H. injection H as <-. simpl. lia.
Qed.

Lemma simple_list_errors_witness :
  get_simple_ingredient_list [("success", JBool false); ("data", JNull)] = inr [] /\
  get_simple_ingredient_list [("success", JBool true); ("data", JNull)]
    = inl AttributeError /\
  get_simple_ingredient_list
    [("success", JBool true); ("data", JDict [("ingredients", JNull)])] = inl TypeError.
Proof.
  split; [| split].
  - exact (proj1 (simple_list_errors [("success", JBool false); ("data", JNull)]) eq_refl).
  - apply (proj2 (proj1 (proj2 (simple_list_errors
                                  [("success", JBool true); ("data", JNull)])))).
    split; [reflexivity | discriminate].
  - apply (proj2 (proj1 (proj2 (proj2 (simple_list_errors
             [("success", JBool true); ("data", JDict [("ingredients", JNull)])]))))).
    split; [reflexivity |].
    exists [("ingredients", JNull)]. split; [reflexivity | exact I].
Defined.

(* ================================================================== *)
(** ** Normalizing twice *)
(* ================================================================== *)

Lemma lower_char_idem c : lower_char (lower_char c) = lower_char c.
Proof. destruct c as [[] [] [] [] [] [] [] []]; reflexivity. Qed.

Lemma lower_idem s : lower (lower s) = lower s.
Proof.
  induction s as [| c s IH]; simpl; [reflexivity |].
  now rewrite lower_char_idem, IH.
Qed.

Lemma lower_lstrip s : lower (lstrip s) = lstrip (lower s).
Proof.
  induction s as [| c s IH]; simpl; [reflexivity |].
  rewrite is_space_lower_char. destruct (is_space c); [assumption | reflexivity].
Qed.

Lemma is_empty_lower s : is_empty (lower s) = is_empty s.
Proof. destruct s; reflexivity. Qed.

Lemma lower_rstrip s : lower (rstrip s) = rstrip (lower s).
Proof.
  induction s as [| c s IH]; simpl; [reflexivity |].
  rewrite is_space_lower_char, <- IH, is_empty_lower.
  destruct (is_space c && is_empty (rstrip s)); [reflexivity |].
  simpl. reflexivity.
Qed.

Lemma lower_strip s : lower (strip s) = strip (lower s).
Proof. unfold strip. now rewrite lower_rstrip, lower_lstrip. Qed.

Lemma rstrip_idem s : rstrip (rstrip s) = rstrip s.
Proof.
  induction s as [| c s IH]; simpl; [reflexivity |].
  destruct (is_space c && is_empty (rstrip s)) eqn:E; [reflexivity |].
  simpl. now rewrite IH, E.
Qed.

Lemma lstrip_rstrip_lstrip s : lstrip (rstrip (lstrip s)) = rstrip (lstrip s).
Proof.
  induction s as [| c s IH]; simpl; [reflexivity |].
  destruct (is_space c) eqn:E; [assumption |].
  simpl. rewrite E. simpl. now rewrite E.
Qed.

Lemma strip_idem s : strip (strip s) = strip s.
Proof. unfold strip. now rewrite lstrip_rstrip_lstrip, rstrip_idem. Qed.

Lemma normalize_idem ings :
  normalize_ingredients (normalize_ingredients ings) = normalize_ingredients ings.
Proof.
  unfold normalize_ingredients. rewrite map_map. apply map_ext. intros s.
  now rewrite lower_strip, lower_idem, strip_idem.
Qed.

(** Normalizing is idempotent, so a client that lower-cases and trims the
    ingredients itself gets the same answer as one that sends them raw. *)
Theorem normalized_request_same_answer (input_data : IngredientInput.t) (db : Session) :
  suggest_recipes
    (IngredientInput.mk (normalize_ingredients (IngredientInput.ingredients input_data))
                        (IngredientInput.dietary_restrictions input_data)
                        (IngredientInput.cuisine_preference input_data)) db =
  suggest_recipes input_data db.
Proof.
  unfold suggest_recipes, query_recipes, cuisine_query.
  cbn [IngredientInput.ingredients IngredientInput.dietary_restrictions
       IngredientInput.cuisine_preference].
  now rewrite normalize_idem.
Qed.

(* ================================================================== *)
(** ** The score grows with the matches *)
(* ================================================================== *)

Lemma match_pct_step_grid :
  forallb (fun total =>
    forallb (fun have => match_pct have total <=? match_pct (S have) total)
            (seq 0 total))
    (seq 0 101) = true.
Proof. vm_compute. reflexivity. Qed.

Lemma match_pct_mono h1 h2 total :
  (h1 <= h2)%nat -> (h2 <= total)%nat -> (total <= 100)%nat ->
  match_pct h1 total <= match_pct h2 total.
Proof.
  intros H12 H2 Ht. induction H12 as [| h2 H12 IH]; [lia |].
  etransitivity; [apply IH; lia |].
  pose proof match_pct_step_grid as G.
  rewrite forallb_forall in G. specialize (G total ltac:(apply in_seq; lia)).
  rewrite forallb_forall in G. specialize (G h2 ltac:(apply in_seq; lia)).
  now apply Z.leb_le in G.
Qed.

(** For a recipe of at most a hundred ingredients, adding ingredients to
    the user's list never lowers the recipe's score. *)
Theorem more_ingredients_never_lower_score (u v : list string) (recipe : Recipe.t) :
  (List.length (Recipe.ingredients recipe) <= 100)%nat ->
  RecipeSuggestion.match_percentage (suggestion_of u recipe) <=
  RecipeSuggestion.match_percentage (suggestion_of (u ++ v) recipe).
Proof.
  intros Hl. rewrite !suggestion_pct. apply match_pct_mono; [| | assumption].
  - apply filter_length_mono. intros r Hr. now rewrite has_ingredient_app, Hr.
  - etransitivity; [apply filter_length_le |].
    unfold recipe_ingredients_names. now rewrite length_map.
Qed.

Lemma more_ingredients_never_lower_score_witness :
  (List.length (Recipe.ingredients thai_green_curry) <= 100)%nat /\
  RecipeSuggestion.match_percentage (suggestion_of ["chicken"] thai_green_curry) <=
  RecipeSuggestion.match_percentage
    (suggestion_of (["chicken"] ++ ["basil"]) thai_green_curry).
Proof.
  assert (Hl : (List.length (Recipe.ingredients thai_green_curry) <= 100)%nat).
  { vm_compute. repeat constructor. }
  split; [exact Hl |].
  exact (more_ingredients_never_lower_score ["chicken"] ["basil"] thai_green_curry Hl).
Defined.
